(** * A GitHub-to-Discord webhook relay (main.go), embedded and verified

    The program is one HTTP handler: it reads the [X-GitHub-Event] header and
    the request body, decodes the body with [json.Unmarshal] into a
    [GitHubEvent], routes on the header to one of two handlers, and each
    handler either drops the event or builds a [DiscordMessage] and posts it
    to one of two webhook addresses.

    The embedding is shallow.  Go structs are records, Go [int] is [Z], Go
    strings are byte strings ([string], a list of 8-bit [ascii]), Go maps are
    [gmap]s.  The effects of the program (lines written with [log.Printf],
    requests made with [http.Post]) are threaded through an explicit
    [World]; the answers of the remote end are read from the world, so every
    statement below holds whatever Discord answers.

    The library functions the program calls are modelled as far as the
    program depends on them, from their documented behaviour: [fmt.Sprintf]
    on the verbs used, [json.Marshal] at the message type, [json.Unmarshal]
    at the event type (syntax check, then storing with Go's rules for keys,
    [null] and values of the wrong kind), [c.GetHeader].  [int] is taken to
    be 64 bits wide, and the encoder is that of Go 1.22 and later.  [main],
    the router and its CORS middleware are not modelled: the development
    starts at [handleGitHubWebhook]. *)

From Stdlib Require Import ZArith String Ascii List Lia DecimalString.
From Stdlib Require DecimalPos DecimalZ DecimalFacts.
From stdpp Require Import gmap strings list fin_maps.
Import ListNotations.

Set Warnings "-register-all".

Local Open Scope string_scope.
Local Open Scope Z_scope.

(** ** Bytes and UTF-8 (package unicode/utf8) *)

Definition byte_val (c : ascii) : Z := Z.of_N (N_of_ascii c).
Definition byte_of (z : Z) : ascii := ascii_of_N (Z.to_N (z mod 256)).

Definition between (lo hi b : Z) : bool := (lo <=? b) && (b <=? hi).

Definition RuneError : Z := 0xFFFD.

(** [utf8.DecodeRuneInString]: the first rune of [s] and its width in bytes;
    [(RuneError, 1)] on an encoding that is not valid UTF-8 and
    [(RuneError, 0)] on the empty string. *)
Definition DecodeRuneInString (s : string) : Z * nat :=
  match s with
  | EmptyString => (RuneError, 0%nat)
  | String c0 r0 =>
    let b0 := byte_val c0 in
    if b0 <? 0x80 then (b0, 1%nat)
    else if (b0 <? 0xC2) || (0xF4 <? b0) then (RuneError, 1%nat)
    else
      let lo := if b0 =? 0xE0 then 0xA0 else if b0 =? 0xF0 then 0x90 else 0x80 in
      let hi := if b0 =? 0xED then 0x9F else if b0 =? 0xF4 then 0x8F else 0xBF in
      match r0 with
      | EmptyString => (RuneError, 1%nat)
      | String c1 r1 =>
        let b1 := byte_val c1 in
        if negb (between lo hi b1) then (RuneError, 1%nat)
        else if b0 <? 0xE0 then
          (Z.lor (Z.shiftl (Z.land b0 0x1F) 6) (Z.land b1 0x3F), 2%nat)
        else
          match r1 with
          | EmptyString => (RuneError, 1%nat)
          | String c2 r2 =>
            let b2 := byte_val c2 in
            if negb (between 0x80 0xBF b2) then (RuneError, 1%nat)
            else if b0 <? 0xF0 then
              (Z.lor (Z.shiftl (Z.land b0 0x0F) 12)
                 (Z.lor (Z.shiftl (Z.land b1 0x3F) 6) (Z.land b2 0x3F)), 3%nat)
            else
              match r2 with
              | EmptyString => (RuneError, 1%nat)
              | String c3 _ =>
                let b3 := byte_val c3 in
                if negb (between 0x80 0xBF b3) then (RuneError, 1%nat)
                else
                  (Z.lor (Z.shiftl (Z.land b0 0x07) 18)
                     (Z.lor (Z.shiftl (Z.land b1 0x3F) 12)
                        (Z.lor (Z.shiftl (Z.land b2 0x3F) 6) (Z.land b3 0x3F))),
                   4%nat)
              end
          end
      end
  end.

(** [utf8.AppendRune] on a rune that is a Unicode scalar value; anything else
    is written as U+FFFD. *)
Definition EncodeRune (r : Z) : string :=
  let r := if (r <? 0) || (0x10FFFF <? r) || between 0xD800 0xDFFF r
           then RuneError else r in
  let cont (sh : Z) := byte_of (Z.lor 0x80 (Z.land (Z.shiftr r sh) 0x3F)) in
  if r <? 0x80 then String (byte_of r) ""
  else if r <? 0x800 then
    String (byte_of (Z.lor 0xC0 (Z.shiftr r 6))) (String (cont 0) "")
  else if r <? 0x10000 then
    String (byte_of (Z.lor 0xE0 (Z.shiftr r 12)))
      (String (cont 6) (String (cont 0) ""))
  else
    String (byte_of (Z.lor 0xF0 (Z.shiftr r 18)))
      (String (cont 12) (String (cont 6) (String (cont 0) ""))).

(** ** Formatting (package fmt) *)

(** [strconv.Itoa], which is also what the verb [%d] prints for an [int]. *)
Definition Itoa (n : Z) : string := NilZero.string_of_int (Z.to_int n).

(** The errors of the libraries the program calls, by kind; the program only
    ever passes them to [log.Printf]. *)
Inductive error : Type :=
| SyntaxError            (** json: the text is not JSON *)
| UnmarshalTypeError (Value goType : string)
                         (** json: a value does not fit the Go type *)
| ReadError              (** io: the body could not be read *)
| TransportError.        (** net/http: no response was obtained *)

(** An operand of a formatting call ([...any]). *)
Inductive any : Type :=
| AString (s : string)
| AInt (n : Z)
| AError (e : error).

(** What one verb prints for one operand.  Only the verbs of the program
    are modelled: [%s], [%d] and [%v], on strings and ints; a verb applied
    there to an operand of the other kind prints Go's [%!verb(type=value)].
    Errors are passed to [log.Printf] alone, whose lines the model keeps
    unrendered: the text of an error is not modelled. *)
Definition format_verb (verb : ascii) (a : any) : string :=
  match a with
  | AString s =>
    if (Ascii.eqb verb "s" || Ascii.eqb verb "v")%char then s
    else "%!" ++ String verb ("(string=" ++ s ++ ")")
  | AInt n =>
    if (Ascii.eqb verb "d" || Ascii.eqb verb "v")%char then Itoa n
    else "%!" ++ String verb ("(int=" ++ Itoa n ++ ")")
  | AError _ => "%!" ++ String verb "(error)"
  end.

(** [fmt.Sprintf]: the format is copied; [%%] is a percent sign; any other
    [%] with the byte after it is a verb and consumes one operand. *)
Fixpoint Sprintf (format : string) (args : list any) : string :=
  match format with
  | EmptyString => ""
  | String "%" EmptyString => "%!(NOVERB)"
  | String "%" (String "%" rest) => String "%" (Sprintf rest args)
  | String "%" (String verb rest) =>
    match args with
    | a :: args' => format_verb verb a ++ Sprintf rest args'
    | [] => "%!" ++ String verb ("(MISSING)" ++ Sprintf rest [])
    end
  | String c rest => String c (Sprintf rest args)
  end.

(** ** The data model *)

(** *** GitHub webhook payload structures *)

Module Repository.
Record t : Type := mk { FullName : string; HTMLURL : string }.
Definition zero : t := mk "" "".
End Repository.

Module Sender.
Record t : Type := mk { Login : string; HTMLURL : string }.
Definition zero : t := mk "" "".
End Sender.

Module PullRequest.
Record t : Type := mk {
  Number : Z;
  Title : string;
  HTMLURL : string;
  Merged : bool;
  State : string
}.
Definition zero : t := mk 0 "" "" false "".
End PullRequest.

Module WorkflowRun.
Record t : Type := mk {
  Name : string;
  Status : string;
  Conclusion : string;
  HTMLURL : string
}.
Definition zero : t := mk "" "" "" "".
End WorkflowRun.

Module GitHubEvent.
Record t : Type := mk {
  Action : string;
  Repository : Repository.t;
  Sender : Sender.t;
  PullRequest : PullRequest.t;
  WorkflowRun : WorkflowRun.t
}.
(** The zero value, as [var event GitHubEvent] declares it. *)
Definition zero : t :=
  mk "" Repository.zero Sender.zero PullRequest.zero WorkflowRun.zero.
End GitHubEvent.

(** *** Discord message structures *)

Module DiscordEmbedField.
Record t : Type := mk { Name : string; Value : string; Inline : bool }.
End DiscordEmbedField.

Module DiscordEmbed.
Record t : Type := mk {
  Title : string;
  Description : string;
  Color : Z;
  URL : string;
  Fields : list DiscordEmbedField.t
}.
End DiscordEmbed.

Module DiscordMessage.
Record t : Type := mk { Content : string; Embeds : list DiscordEmbed.t }.
End DiscordMessage.

(** ** Encoding a message (package encoding/json, [Marshal]) *)

Definition quote : string := String "034" "".
Definition backslash : ascii := "092"%char.

Definition hex (n : Z) : ascii :=
  match String.get (Z.to_nat n) "0123456789abcdef" with
  | Some c => c
  | None => "0"%char
  end.

(** [htmlSafeSet], on a byte below 0x80: every byte from the space on,
    except the double quote, the backslash and the three characters
    [Marshal] escapes for HTML. *)
Definition htmlSafe (b : Z) : bool :=
  (0x20 <=? b)
  && negb ((b =? 0x22) || (b =? 0x5C) || (b =? 0x3C) || (b =? 0x3E) || (b =? 0x26)).

(** The escape of a byte below 0x80 that is not [htmlSafe]. *)
Definition escapeByte (b : Z) : string :=
  String backslash
    (if (b =? 0x5C) || (b =? 0x22) then String (byte_of b) ""
     else if b =? 0x08 then "b"
     else if b =? 0x0C then "f"
     else if b =? 0x0A then "n"
     else if b =? 0x0D then "r"
     else if b =? 0x09 then "t"
     else String "u" (String "0" (String "0"
            (String (hex (Z.shiftr b 4)) (String (hex (Z.land b 0xF)) ""))))).

(** The loop of [appendString].  Go advances an index by the width of the
    rune it has decoded; here the bytes of that rune that are still to come
    are counted in [pending] and are copied when [keep] is set. *)
Fixpoint appendStringLoop (pending : nat) (keep : bool) (src : string) : string :=
  match src with
  | EmptyString => ""
  | String c rest =>
    match pending with
    | S k =>
      if keep then String c (appendStringLoop k keep rest)
      else appendStringLoop k keep rest
    | O =>
      let b := byte_val c in
      if b <? 0x80 then
        (if htmlSafe b then String c "" else escapeByte b)
          ++ appendStringLoop 0 true rest
      else
        let '(r, size) := DecodeRuneInString src in
        if (r =? RuneError) && (size =? 1)%nat then
          String backslash "ufffd" ++ appendStringLoop 0 true rest
        else if (r =? 0x2028) || (r =? 0x2029) then
          String backslash "u202" ++ String (hex (Z.land r 0xF)) ""
            ++ appendStringLoop (size - 1) false rest
        else String c (appendStringLoop (size - 1) true rest)
    end
  end.

Definition appendString (src : string) : string :=
  quote ++ appendStringLoop 0 true src ++ quote.

Definition encodeKey (name : string) : string := quote ++ name ++ quote ++ ":".

(** The members of an object, separated by commas; a member that
    [omitempty] leaves out is [None]. *)
Fixpoint joinMembers (members : list (option string)) : string :=
  match members with
  | [] => ""
  | None :: rest => joinMembers rest
  | Some m :: rest =>
    match joinMembers rest with
    | "" => m
    | tail => m ++ "," ++ tail
    end
  end.

Definition encodeObject (members : list (option string)) : string :=
  "{" ++ joinMembers members ++ "}".

Definition encodeArray (elems : list string) : string :=
  "[" ++ joinMembers (map Some elems) ++ "]".

Definition omitempty {A : Type} (empty : A -> bool) (name : string)
    (enc : A -> string) (v : A) : option string :=
  if empty v then None else Some (encodeKey name ++ enc v).

Definition always {A : Type} (name : string) (enc : A -> string) (v : A)
    : option string :=
  Some (encodeKey name ++ enc v).

Definition isEmptyString (s : string) : bool := (String.length s =? 0)%nat.
Definition isEmptySlice {A : Type} (l : list A) : bool := (length l =? 0)%nat.
Definition encodeBool (b : bool) : string := if b then "true" else "false".

Definition encodeDiscordEmbedField (f : DiscordEmbedField.t) : string :=
  encodeObject
    [ always "name" appendString f.(DiscordEmbedField.Name);
      always "value" appendString f.(DiscordEmbedField.Value);
      omitempty negb "inline" encodeBool f.(DiscordEmbedField.Inline) ].

Definition encodeDiscordEmbed (e : DiscordEmbed.t) : string :=
  encodeObject
    [ always "title" appendString e.(DiscordEmbed.Title);
      always "description" appendString e.(DiscordEmbed.Description);
      always "color" Itoa e.(DiscordEmbed.Color);
      omitempty isEmptyString "url" appendString e.(DiscordEmbed.URL);
      omitempty isEmptySlice "fields"
        (fun fs => encodeArray (map encodeDiscordEmbedField fs))
        e.(DiscordEmbed.Fields) ].

Definition encodeDiscordMessage (m : DiscordMessage.t) : string :=
  encodeObject
    [ omitempty isEmptyString "content" appendString m.(DiscordMessage.Content);
      omitempty isEmptySlice "embeds"
        (fun es => encodeArray (map encodeDiscordEmbed es))
        m.(DiscordMessage.Embeds) ].

(** [json.Marshal] at the type [DiscordMessage].  The type holds strings,
    ints, bools and slices of structs only, for which the encoder has no
    error to report; the result type keeps the shape of the Go signature
    [([]byte, error)]. *)
Definition json_Marshal (message : DiscordMessage.t) : string + error :=
  inl (encodeDiscordMessage message).

(** ** Decoding the request body (package encoding/json, [Unmarshal])

    [Unmarshal] first checks that the whole text is one JSON value followed
    by white space only ([checkValid], a byte-at-a-time scanner), and only
    then stores the value into the Go variable.  The check is modelled in two
    passes, both a fold over the input: [lex] recognises the tokens (the
    scanner's string, number and literal states), [parse] recognises the
    nesting with an explicit stack (the scanner's [parseState]) and builds
    the value. *)

Inductive token : Type :=
| TLBrace | TRBrace | TLBracket | TRBracket | TColon | TComma
| TString (raw : string)     (** the text between the quotes, escapes kept *)
| TNumber (lit : string)
| TTrue | TFalse | TNull.

(** The scanner's number states: after the sign, after a leading zero, in
    the integer digits, after the point, in the fraction digits, after the
    exponent mark, after the exponent sign, in the exponent digits. *)
Inductive numState : Type :=
| NNeg | N0 | N1 | NDot | NDot0 | NE | NESign | NE0.

Inductive lexState : Type :=
| LIdle
| LString (raw : string)
| LEscape (raw : string)
| LHex (raw : string) (todo : nat)
| LNumber (st : numState) (lit : string)
| LLiteral (rest : string) (tok : token).

Definition isSpace (c : ascii) : bool :=
  let b := byte_val c in (b =? 0x20) || (b =? 0x09) || (b =? 0x0D) || (b =? 0x0A).

Definition isDigit (c : ascii) : bool := between 0x30 0x39 (byte_val c).

Definition isHexDigit (c : ascii) : bool :=
  let b := byte_val c in
  between 0x30 0x39 b || between 0x61 0x66 b || between 0x41 0x46 b.

Definition snoc (s : string) (c : ascii) : string := s ++ String c "".

(** A number may end in these states. *)
Definition numFinal (st : numState) : bool :=
  match st with
  | N0 | N1 | NDot0 | NE0 => true
  | _ => false
  end.

(** One more byte of a number: the next state, or [None] when the byte does
    not continue the number. *)
Definition numStep (st : numState) (c : ascii) : option numState :=
  let isE := ((c =? "e") || (c =? "E"))%char in
  match st with
  | NNeg => if (c =? "0")%char then Some N0 else if isDigit c then Some N1 else None
  | N0 => if (c =? ".")%char then Some NDot else if isE then Some NE else None
  | N1 =>
    if isDigit c then Some N1
    else if (c =? ".")%char then Some NDot else if isE then Some NE else None
  | NDot => if isDigit c then Some NDot0 else None
  | NDot0 => if isDigit c then Some NDot0 else if isE then Some NE else None
  | NE =>
    if ((c =? "+") || (c =? "-"))%char then Some NESign
    else if isDigit c then Some NE0 else None
  | NESign => if isDigit c then Some NE0 else None
  | NE0 => if isDigit c then Some NE0 else None
  end.

(** A byte at the beginning of a token ([stateBeginValue] and the
    punctuation the scanner accepts between values). *)
Definition lexIdle (c : ascii) : option (lexState * list token) :=
  if isSpace c then Some (LIdle, [])
  else if (c =? "{")%char then Some (LIdle, [TLBrace])
  else if (c =? "}")%char then Some (LIdle, [TRBrace])
  else if (c =? "[")%char then Some (LIdle, [TLBracket])
  else if (c =? "]")%char then Some (LIdle, [TRBracket])
  else if (c =? ":")%char then Some (LIdle, [TColon])
  else if (c =? ",")%char then Some (LIdle, [TComma])
  else if (c =? "034")%char then Some (LString "", [])
  else if (c =? "-")%char then Some (LNumber NNeg (String c ""), [])
  else if (c =? "0")%char then Some (LNumber N0 (String c ""), [])
  else if isDigit c then Some (LNumber N1 (String c ""), [])
  else if (c =? "t")%char then Some (LLiteral "rue" TTrue, [])
  else if (c =? "f")%char then Some (LLiteral "alse" TFalse, [])
  else if (c =? "n")%char then Some (LLiteral "ull" TNull, [])
  else None.

Definition lexStep (st : lexState) (c : ascii) : option (lexState * list token) :=
  match st with
  | LIdle => lexIdle c
  | LString raw =>
    if (c =? "034")%char then Some (LIdle, [TString raw])
    else if (c =? backslash)%char then Some (LEscape (snoc raw c), [])
    else if byte_val c <? 0x20 then None
    else Some (LString (snoc raw c), [])
  | LEscape raw =>
    if (c =? "u")%char then Some (LHex (snoc raw c) 4, [])
    else if ((c =? "b") || (c =? "f") || (c =? "n") || (c =? "r") || (c =? "t")
             || (c =? backslash) || (c =? "/") || (c =? "034"))%char
    then Some (LString (snoc raw c), [])
    else None
  | LHex raw todo =>
    if isHexDigit c then
      match todo with
      | S (S k) => Some (LHex (snoc raw c) (S k), [])
      | _ => Some (LString (snoc raw c), [])
      end
    else None
  | LNumber ns lit =>
    match numStep ns c with
    | Some ns' => Some (LNumber ns' (snoc lit c), [])
    | None =>
      if numFinal ns then
        match lexIdle c with
        | Some (st', toks) => Some (st', TNumber lit :: toks)
        | None => None
        end
      else None
    end
  | LLiteral rest tok =>
    match rest with
    | String c' rest' =>
      if (c =? c')%char then
        match rest' with
        | EmptyString => Some (LIdle, [tok])
        | _ => Some (LLiteral rest' tok, [])
        end
      else None
    | EmptyString => None
    end
  end.

(** The end of the input ([scanner.eof]). *)
Definition lexEnd (st : lexState) : option (list token) :=
  match st with
  | LIdle => Some []
  | LNumber ns lit => if numFinal ns then Some [TNumber lit] else None
  | _ => None
  end.

Fixpoint lexFrom (st : lexState) (data : string) : option (list token) :=
  match data with
  | EmptyString => lexEnd st
  | String c rest =>
    match lexStep st c with
    | Some (st', toks) =>
      match lexFrom st' rest with
      | Some more => Some (toks ++ more)%list
      | None => None
      end
    | None => None
    end
  end.

Definition lex (data : string) : option (list token) := lexFrom LIdle data.

(** *** String literals ([unquoteBytes]) *)

Definition hexVal (c : ascii) : Z :=
  let b := byte_val c in
  if between 0x30 0x39 b then b - 0x30
  else if between 0x61 0x66 b then b - 0x61 + 10
  else b - 0x41 + 10.

(** [getu4]: the code unit that a backslash, [u] and four hex digits at the
    head of [s] denote, with the text after them. *)
Definition getu4 (s : string) : option (Z * string) :=
  match s with
  | String b (String u (String h1 (String h2 (String h3 (String h4 rest))))) =>
    if (b =? backslash)%char && (u =? "u")%char
       && isHexDigit h1 && isHexDigit h2 && isHexDigit h3 && isHexDigit h4
    then Some (hexVal h1 * 4096 + hexVal h2 * 256 + hexVal h3 * 16 + hexVal h4, rest)
    else None
  | _ => None
  end.

(** [utf16.IsSurrogate] and [utf16.DecodeRune]. *)
Definition IsSurrogate (r : Z) : bool := (0xD800 <=? r) && (r <? 0xE000).

Definition utf16_DecodeRune (r1 r2 : Z) : Z :=
  if (0xD800 <=? r1) && (r1 <? 0xDC00) && (0xDC00 <=? r2) && (r2 <? 0xE000)
  then Z.lor (Z.shiftl (r1 - 0xD800) 10) (r2 - 0xDC00) + 0x10000
  else RuneError.

Definition prefix (pre : string) (tail : option string) : option string :=
  match tail with
  | Some t => Some (pre ++ t)
  | None => None
  end.

(** The loop of [unquoteBytes] over the text between the quotes.  [pending]
    counts the bytes of the escape or rune already translated that are still
    to be skipped. *)
Fixpoint unquoteLoop (pending : nat) (s : string) : option string :=
  match s with
  | EmptyString => Some ""
  | String c rest =>
    match pending with
    | S k => unquoteLoop k rest
    | O =>
      if (c =? backslash)%char then
        match rest with
        | EmptyString => None
        | String e _ =>
          if (e =? "u")%char then
            match getu4 s with
            | None => None
            | Some (rr, after) =>
              if IsSurrogate rr then
                let rr1 := match getu4 after with
                           | Some (r, _) => r
                           | None => -1
                           end in
                let dec := utf16_DecodeRune rr rr1 in
                if negb (dec =? RuneError)
                then prefix (EncodeRune dec) (unquoteLoop 11 rest)
                else prefix (EncodeRune RuneError) (unquoteLoop 5 rest)
              else prefix (EncodeRune rr) (unquoteLoop 5 rest)
            end
          else if ((e =? "034") || (e =? backslash) || (e =? "/") || (e =? "'"))%char
          then prefix (String e "") (unquoteLoop 1 rest)
          else if (e =? "b")%char then prefix (String "008" "") (unquoteLoop 1 rest)
          else if (e =? "f")%char then prefix (String "012" "") (unquoteLoop 1 rest)
          else if (e =? "n")%char then prefix (String "010" "") (unquoteLoop 1 rest)
          else if (e =? "r")%char then prefix (String "013" "") (unquoteLoop 1 rest)
          else if (e =? "t")%char then prefix (String "009" "") (unquoteLoop 1 rest)
          else None
        end
      else if (c =? "034")%char || (byte_val c <? 0x20) then None
      else if byte_val c <? 0x80 then prefix (String c "") (unquoteLoop 0 rest)
      else
        let '(rr, size) := DecodeRuneInString s in
        prefix (EncodeRune rr) (unquoteLoop (size - 1) rest)
    end
  end.

Definition unquote (raw : string) : option string := unquoteLoop 0 raw.

(** *** Values and nesting *)

Inductive json : Type :=
| JNull
| JBool (b : bool)
| JNumber (lit : string)
| JString (s : string)
| JArray (elems : list json)
| JObject (members : list (string * json)).

(** An open array or object: what it holds so far, latest first, and for an
    object the key whose value is awaited. *)
Inductive frame : Type :=
| FArray (elems : list json)
| FObject (members : list (string * json)) (key : option string).

(** What the scanner accepts next. *)
Inductive expect : Type :=
| EValue          (** a value *)
| EArrayFirst     (** a value or the end of the array *)
| EObjectFirst    (** a key or the end of the object *)
| EKey            (** a key *)
| EColon          (** the colon after a key *)
| EAfter          (** a comma or the end of the open array or object *)
| EDone (v : json). (** white space only: the top-level value is complete *)

Definition maxNestingDepth : Z := 10000.

(** A value is complete: it is the top-level value or goes into the
    innermost open array or object. *)
Definition complete (v : json) (stack : list frame) : option (expect * list frame) :=
  match stack with
  | [] => Some (EDone v, [])
  | FArray es :: st => Some (EAfter, FArray (v :: es) :: st)
  | FObject ms (Some k) :: st => Some (EAfter, FObject ((k, v) :: ms) None :: st)
  | FObject _ None :: _ => None
  end.

(** [pushParseState]: one more level, within the depth the scanner allows. *)
Definition push (f : frame) (next : expect) (stack : list frame)
    : option (expect * list frame) :=
  if Z.of_nat (length (f :: stack)) <=? maxNestingDepth
  then Some (next, f :: stack) else None.

Definition beginValue (t : token) (stack : list frame) : option (expect * list frame) :=
  match t with
  | TLBrace => push (FObject [] None) EObjectFirst stack
  | TLBracket => push (FArray []) EArrayFirst stack
  | TString raw =>
    match unquote raw with
    | Some s => complete (JString s) stack
    | None => None
    end
  | TNumber lit => complete (JNumber lit) stack
  | TTrue => complete (JBool true) stack
  | TFalse => complete (JBool false) stack
  | TNull => complete JNull stack
  | _ => None
  end.

Definition beginKey (t : token) (stack : list frame) : option (expect * list frame) :=
  match t, stack with
  | TString raw, FObject ms None :: st =>
    match unquote raw with
    | Some k => Some (EColon, FObject ms (Some k) :: st)
    | None => None
    end
  | _, _ => None
  end.

Definition parseStep (st : expect * list frame) (t : token)
    : option (expect * list frame) :=
  let '(e, stack) := st in
  match e with
  | EValue => beginValue t stack
  | EArrayFirst =>
    match t, stack with
    | TRBracket, FArray es :: st' => complete (JArray (rev es)) st'
    | _, _ => beginValue t stack
    end
  | EObjectFirst =>
    match t, stack with
    | TRBrace, FObject ms None :: st' => complete (JObject (rev ms)) st'
    | _, _ => beginKey t stack
    end
  | EKey => beginKey t stack
  | EColon =>
    match t with
    | TColon => Some (EValue, stack)
    | _ => None
    end
  | EAfter =>
    match t, stack with
    | TComma, FArray _ :: _ => Some (EValue, stack)
    | TComma, FObject _ None :: _ => Some (EKey, stack)
    | TRBracket, FArray es :: st' => complete (JArray (rev es)) st'
    | TRBrace, FObject ms None :: st' => complete (JObject (rev ms)) st'
    | _, _ => None
    end
  | EDone _ => None
  end.

Fixpoint parseFrom (st : expect * list frame) (toks : list token) : option json :=
  match toks with
  | [] =>
    match st with
    | (EDone v, _) => Some v
    | _ => None
    end
  | t :: rest =>
    match parseStep st t with
    | Some st' => parseFrom st' rest
    | None => None
    end
  end.

(** The value a text denotes, or [None] when the text is not valid JSON:
    the texts [checkValid] accepts are those with [parseJSON data <> None]. *)
Definition parseJSON (data : string) : option json :=
  match lex data with
  | Some toks => parseFrom (EValue, []) toks
  | None => None
  end.

Definition validJSON (data : string) : Prop := parseJSON data <> None.

(** *** Storing a value into a [GitHubEvent] *)

(** [foldName]: the form under which an object key is compared with the
    name of a struct field when the two are not equal byte for byte.  ASCII
    letters fold to upper case; of the letters outside ASCII only U+017F
    (long s) and U+212A (Kelvin sign) fold to an ASCII letter, and the field
    names of the program are ASCII.  [pending] counts the bytes of one of
    those two letters that are still to be skipped. *)
Fixpoint foldNameLoop (pending : nat) (s : string) : string :=
  match s with
  | EmptyString => ""
  | String c rest =>
    match pending with
    | S k => foldNameLoop k rest
    | O =>
      let b := byte_val c in
      if between 0x61 0x7A b then String (byte_of (b - 0x20)) (foldNameLoop 0 rest)
      else
        let '(r, size) := DecodeRuneInString s in
        if r =? 0x017F then String "S" (foldNameLoop (size - 1) rest)
        else if r =? 0x212A then String "K" (foldNameLoop (size - 1) rest)
        else String c (foldNameLoop 0 rest)
    end
  end.

Definition foldName (s : string) : string := foldNameLoop 0 s.

(** Does the object key [key] select the field tagged [name]? *)
Definition selects (key name : string) : bool :=
  (key =? name)%string || (foldName key =? foldName name)%string.

(** [d.saveError]: the first error is the one [Unmarshal] returns. *)
Definition saveError (saved : option error) (err : option error) : option error :=
  match saved with
  | Some e => Some e
  | None => err
  end.

(** How [UnmarshalTypeError.Value] names a JSON value. *)
Definition describe (v : json) : string :=
  match v with
  | JNull => "null"
  | JBool _ => "bool"
  | JNumber lit => "number " ++ lit
  | JString _ => "string"
  | JArray _ => "array"
  | JObject _ => "object"
  end.

Definition describeKind (v : json) : string :=
  match v with
  | JNumber _ => "number"
  | _ => describe v
  end.

(** [strconv.ParseInt(lit, 10, 64)] on the text of a JSON number. *)
Definition parseInt64 (lit : string) : option Z :=
  match NilZero.int_of_string lit with
  | Some d =>
    let n := Z.of_int d in
    if (- 2 ^ 63 <=? n) && (n <? 2 ^ 63) then Some n else None
  | None => None
  end.

(** Storing into a field of kind string, int or bool: [null] leaves the
    field as it is, a value of another kind leaves it as it is and is an
    error. *)
Definition storeString (v : json) (old : string) : string * option error :=
  match v with
  | JString s => (s, None)
  | JNull => (old, None)
  | _ => (old, Some (UnmarshalTypeError (describeKind v) "string"))
  end.

Definition storeInt (v : json) (old : Z) : Z * option error :=
  match v with
  | JNumber lit =>
    match parseInt64 lit with
    | Some n => (n, None)
    | None => (old, Some (UnmarshalTypeError (describe v) "int"))
    end
  | JNull => (old, None)
  | _ => (old, Some (UnmarshalTypeError (describeKind v) "int"))
  end.

Definition storeBool (v : json) (old : bool) : bool * option error :=
  match v with
  | JBool b => (b, None)
  | JNull => (old, None)
  | _ => (old, Some (UnmarshalTypeError (describeKind v) "bool"))
  end.

(** Storing into a struct: the members of an object are stored one after
    the other into the fields their keys select, members that select no
    field are skipped. *)
Definition storeStruct {T : Type} (goType : string)
    (storeField : string -> json -> T -> T * option error)
    (v : json) (old : T) : T * option error :=
  match v with
  | JObject members =>
    fold_left
      (fun (acc : T * option error) (member : string * json) =>
         let '(x, saved) := acc in
         let '(x', err) := storeField (fst member) (snd member) x in
         (x', saveError saved err))
      members (old, None)
  | JNull => (old, None)
  | _ => (old, Some (UnmarshalTypeError (describeKind v) goType))
  end.

Definition storeRepository : json -> Repository.t -> Repository.t * option error :=
  storeStruct "main.Repository" (fun key v x =>
    if selects key "full_name" then
      let '(s, err) := storeString v x.(Repository.FullName) in
      (Repository.mk s x.(Repository.HTMLURL), err)
    else if selects key "html_url" then
      let '(s, err) := storeString v x.(Repository.HTMLURL) in
      (Repository.mk x.(Repository.FullName) s, err)
    else (x, None)).

Definition storeSender : json -> Sender.t -> Sender.t * option error :=
  storeStruct "main.Sender" (fun key v x =>
    if selects key "login" then
      let '(s, err) := storeString v x.(Sender.Login) in
      (Sender.mk s x.(Sender.HTMLURL), err)
    else if selects key "html_url" then
      let '(s, err) := storeString v x.(Sender.HTMLURL) in
      (Sender.mk x.(Sender.Login) s, err)
    else (x, None)).

Definition storePullRequest : json -> PullRequest.t -> PullRequest.t * option error :=
  storeStruct "main.PullRequest" (fun key v x =>
    let '(PullRequest.mk number title htmlurl merged state) := x in
    if selects key "number" then
      let '(n, err) := storeInt v number in
      (PullRequest.mk n title htmlurl merged state, err)
    else if selects key "title" then
      let '(s, err) := storeString v title in
      (PullRequest.mk number s htmlurl merged state, err)
    else if selects key "html_url" then
      let '(s, err) := storeString v htmlurl in
      (PullRequest.mk number title s merged state, err)
    else if selects key "merged" then
      let '(b, err) := storeBool v merged in
      (PullRequest.mk number title htmlurl b state, err)
    else if selects key "state" then
      let '(s, err) := storeString v state in
      (PullRequest.mk number title htmlurl merged s, err)
    else (x, None)).

Definition storeWorkflowRun : json -> WorkflowRun.t -> WorkflowRun.t * option error :=
  storeStruct "main.WorkflowRun" (fun key v x =>
    let '(WorkflowRun.mk name status conclusion htmlurl) := x in
    if selects key "name" then
      let '(s, err) := storeString v name in
      (WorkflowRun.mk s status conclusion htmlurl, err)
    else if selects key "status" then
      let '(s, err) := storeString v status in
      (WorkflowRun.mk name s conclusion htmlurl, err)
    else if selects key "conclusion" then
      let '(s, err) := storeString v conclusion in
      (WorkflowRun.mk name status s htmlurl, err)
    else if selects key "html_url" then
      let '(s, err) := storeString v htmlurl in
      (WorkflowRun.mk name status conclusion s, err)
    else (x, None)).

Definition storeGitHubEvent : json -> GitHubEvent.t -> GitHubEvent.t * option error :=
  storeStruct "main.GitHubEvent" (fun key v x =>
    let '(GitHubEvent.mk action repository sender pull_request workflow_run) := x in
    if selects key "action" then
      let '(s, err) := storeString v action in
      (GitHubEvent.mk s repository sender pull_request workflow_run, err)
    else if selects key "repository" then
      let '(r, err) := storeRepository v repository in
      (GitHubEvent.mk action r sender pull_request workflow_run, err)
    else if selects key "sender" then
      let '(s, err) := storeSender v sender in
      (GitHubEvent.mk action repository s pull_request workflow_run, err)
    else if selects key "pull_request" then
      let '(p, err) := storePullRequest v pull_request in
      (GitHubEvent.mk action repository sender p workflow_run, err)
    else if selects key "workflow_run" then
      let '(r, err) := storeWorkflowRun v workflow_run in
      (GitHubEvent.mk action repository sender pull_request r, err)
    else (x, None)).

(** [json.Unmarshal(data, &event)]: the event after the call and the error
    returned.  A text that is not JSON leaves the event untouched. *)
Definition json_Unmarshal (data : string) (event : GitHubEvent.t)
    : GitHubEvent.t * option error :=
  match parseJSON data with
  | None => (event, Some SyntaxError)
  | Some v => storeGitHubEvent v event
  end.

(** ** The inbound request (packages net/http and gin) *)

(** The part of [http.Request] the program reads: the header, keyed by
    canonical name as the server stores it, and what [io.ReadAll] obtains
    from the body. *)
Record http_Request : Type := mkRequest {
  Header : gmap string (list string);
  Body : string + error
}.

Record gin_Context : Type := mkContext { Request : http_Request }.

(** What [c.JSON(code, obj)] writes: the status code and an object
    ([gin.H]) sent as JSON. *)
Record Response : Type := JSON { Code : Z; H : gmap string string }.

Definition validHeaderFieldByte (c : ascii) : bool :=
  let b := byte_val c in
  between 0x30 0x39 b || between 0x41 0x5A b || between 0x61 0x7A b
  || existsb (Ascii.eqb c) (list_ascii_of_string "!#$%&'*+-.^_`|~").

(** [textproto.CanonicalMIMEHeaderKey]: the first letter and every letter
    after a hyphen in upper case, the others in lower case; a key with a
    byte that no header name has is left as it is. *)
Fixpoint canonicalLoop (upper : bool) (s : string) : string :=
  match s with
  | EmptyString => ""
  | String c rest =>
    let b := byte_val c in
    let c' := if upper && between 0x61 0x7A b then byte_of (b - 0x20)
              else if negb upper && between 0x41 0x5A b then byte_of (b + 0x20)
              else c in
    String c' (canonicalLoop (c' =? "-")%char rest)
  end.

Definition CanonicalMIMEHeaderKey (s : string) : string :=
  if forallb validHeaderFieldByte (list_ascii_of_string s)
  then canonicalLoop true s else s.

(** [c.GetHeader(key)]: the first value of the header, [""] when there is
    none. *)
Definition GetHeader (c : gin_Context) (key : string) : string :=
  match c.(Request).(Header) !! CanonicalMIMEHeaderKey key with
  | Some (v :: _) => v
  | _ => ""
  end.

(** [io.ReadAll(c.Request.Body)]: the bytes of the body, or the error that
    interrupted the reading; which of the two is part of the request. *)
Definition io_ReadAll (r : string + error) : string + error := r.

(** ** The world the program acts on *)

(** One call of [log.Printf], kept as the format and its operands. *)
Record LogEntry : Type := Printf { log_format : string; log_args : list any }.

(** One call of [http.Post(url, contentType, body)].  [message] is a ghost
    field: the value whose encoding [body] is. *)
Record Delivery : Type := mkDelivery {
  url : string;
  contentType : string;
  body : string;
  message : DiscordMessage.t
}.

(** What [http.Post] returns: an error, or a response whose status code and
    body the program reads. *)
Inductive PostResult : Type :=
| PostFailed
| PostResponse (StatusCode : Z) (Body : string).

(** [logs] and [outbox] grow at the end.  [remote] is the far end of the
    network: its answer to a request, given every request made so far (the
    last one being the request to answer). *)
Record World : Type := mkWorld {
  logs : list LogEntry;
  outbox : list Delivery;
  remote : list Delivery -> PostResult
}.

(** Computations that read and extend the world. *)
Definition M (A : Type) : Type := World -> A * World.

Definition ret {A : Type} (a : A) : M A := fun w => (a, w).

Definition bind {A B : Type} (m : M A) (k : A -> M B) : M B :=
  fun w => let '(a, w') := m w in k a w'.

Declare Scope relay_scope.
Delimit Scope relay_scope with relay.
Notation "x <- m ;; k" := (bind m (fun x => k))
  (at level 20, m at level 99, k at level 200, only parsing) : relay_scope.
Notation "m ;; k" := (bind m (fun _ => k))
  (at level 100, k at level 200, only parsing, right associativity) : relay_scope.
Local Open Scope relay_scope.

Definition log_Printf (format : string) (args : list any) : M unit :=
  fun w => (tt, mkWorld (w.(logs) ++ [Printf format args])%list w.(outbox) w.(remote)).

Definition http_Post (url contentType body : string) (message : DiscordMessage.t)
    : M PostResult :=
  fun w =>
    let sent := (w.(outbox) ++ [mkDelivery url contentType body message])%list in
    (w.(remote) sent, mkWorld w.(logs) sent w.(remote)).

(** The requests a computation adds to the outbox of [w]. *)
Definition deliveries {A : Type} (m : M A) (w : World) : list Delivery :=
  drop (length w.(outbox)) (snd (m w)).(outbox).

(** The lines a computation adds to the log of [w]. *)
Definition logged {A : Type} (m : M A) (w : World) : list LogEntry :=
  drop (length w.(logs)) (snd (m w)).(logs).

(** ** The program *)

Section Relay.

(** Channel webhook URLs: package-level variables, set once by [main] from
    the environment before the server starts. *)
Variable developmentChannelWebhook : string.
Variable testingChannelWebhook : string.

Definition sendDiscordMessage (webhookURL : string) (message : DiscordMessage.t)
    : M unit :=
  match json_Marshal message with
  | inr err =>
    log_Printf "Error marshaling Discord message: %v" [AError err]
  | inl jsonData =>
    resp <- http_Post webhookURL "application/json" jsonData message ;;
    match resp with
    | PostFailed =>
      log_Printf "Error sending Discord message: %v" [AError TransportError]
    | PostResponse StatusCode bodyBytes =>
      if (StatusCode <? 200) || (StatusCode >=? 300) then
        log_Printf "Discord API error (status %d): %s"
          [AInt StatusCode; AString bodyBytes]
      else
        log_Printf "Discord message sent successfully" []
    end
  end.

(** Go's map index expression [m[k]] on a [map[string]bool]: the zero value
    [false] for a key that is absent. *)
Definition index (m : gmap string bool) (k : string) : bool :=
  default false (m !! k).

Definition handlePullRequestEvent (event : GitHubEvent.t) : M unit :=
  log_Printf "Processing pull request event: %s"
    [AString event.(GitHubEvent.Action)] ;;
  let actionsToProcess : gmap string bool :=
    <["opened" := true]> (<["reopened" := true]>
      (<["ready_for_review" := true]> (<["closed" := true]> ∅))) in
  if negb (index actionsToProcess event.(GitHubEvent.Action)) then
    log_Printf "Ignoring PR action: %s" [AString event.(GitHubEvent.Action)]
  else if (event.(GitHubEvent.Action) =? "closed")%string
          && negb event.(GitHubEvent.PullRequest).(PullRequest.Merged) then
    log_Printf "PR was closed without merging, not sending notification" []
  else
    let color := 0x1D82F7 in
    let color :=
      if (event.(GitHubEvent.Action) =? "closed")%string
         && event.(GitHubEvent.PullRequest).(PullRequest.Merged)
      then 0x6E48CD else color in
    let actionDesc := event.(GitHubEvent.Action) in
    let actionDesc :=
      if (event.(GitHubEvent.Action) =? "closed")%string
         && event.(GitHubEvent.PullRequest).(PullRequest.Merged)
      then "merged" else actionDesc in
    let message :=
      DiscordMessage.mk ""
        [ DiscordEmbed.mk
            (Sprintf "Pull Request %s" [AString actionDesc])
            (Sprintf "**%s** %s [#%d: %s](%s)"
               [ AString event.(GitHubEvent.Sender).(Sender.Login);
                 AString actionDesc;
                 AInt event.(GitHubEvent.PullRequest).(PullRequest.Number);
                 AString event.(GitHubEvent.PullRequest).(PullRequest.Title);
                 AString event.(GitHubEvent.PullRequest).(PullRequest.HTMLURL) ])
            color
            event.(GitHubEvent.PullRequest).(PullRequest.HTMLURL)
            [ DiscordEmbedField.mk "Repository"
                (Sprintf "[%s](%s)"
                   [ AString event.(GitHubEvent.Repository).(Repository.FullName);
                     AString event.(GitHubEvent.Repository).(Repository.HTMLURL) ])
                true;
              DiscordEmbedField.mk "PR Status"
                event.(GitHubEvent.PullRequest).(PullRequest.State)
                true ] ] in
    sendDiscordMessage developmentChannelWebhook message.

(** The [switch] on the conclusion compares its tag with each case in turn,
    and has no default case: the color stays as it was. *)
Definition handleWorkflowRunEvent (event : GitHubEvent.t) : M unit :=
  log_Printf "Processing workflow run event: %s"
    [AString event.(GitHubEvent.Action)] ;;
  if negb (event.(GitHubEvent.Action) =? "completed")%string then
    log_Printf "Ignoring workflow run action: %s"
      [AString event.(GitHubEvent.Action)]
  else
    let color := 0xE6E6E6 in
    let color :=
      let tag := event.(GitHubEvent.WorkflowRun).(WorkflowRun.Conclusion) in
      if (tag =? "success")%string then 0x2ECC71
      else if (tag =? "failure")%string then 0xE74C3C
      else if (tag =? "cancelled")%string then 0xF39C12
      else if (tag =? "skipped")%string then 0x95A5A6
      else color in
    let message :=
      DiscordMessage.mk ""
        [ DiscordEmbed.mk
            (Sprintf "Workflow Run %s"
               [AString event.(GitHubEvent.WorkflowRun).(WorkflowRun.Conclusion)])
            (Sprintf "Workflow **%s** %s"
               [ AString event.(GitHubEvent.WorkflowRun).(WorkflowRun.Name);
                 AString event.(GitHubEvent.WorkflowRun).(WorkflowRun.Conclusion) ])
            color
            event.(GitHubEvent.WorkflowRun).(WorkflowRun.HTMLURL)
            [ DiscordEmbedField.mk "Repository"
                (Sprintf "[%s](%s)"
                   [ AString event.(GitHubEvent.Repository).(Repository.FullName);
                     AString event.(GitHubEvent.Repository).(Repository.HTMLURL) ])
                true;
              DiscordEmbedField.mk "Triggered by"
                (Sprintf "[%s](%s)"
                   [ AString event.(GitHubEvent.Sender).(Sender.Login);
                     AString event.(GitHubEvent.Sender).(Sender.HTMLURL) ])
                true ] ] in
    sendDiscordMessage testingChannelWebhook message.

Definition handleGitHubWebhook (c : gin_Context) : M Response :=
  let eventType := GetHeader c "X-GitHub-Event" in
  log_Printf "Received GitHub webhook event: %s" [AString eventType] ;;
  match io_ReadAll c.(Request).(Body) with
  | inr err =>
    log_Printf "Error reading request body: %v" [AError err] ;;
    ret (JSON 400 {[ "error" := "Unable to read request body" ]})
  | inl body =>
    let '(event, failure) := json_Unmarshal body GitHubEvent.zero in
    match failure with
    | Some err =>
      log_Printf "Error parsing webhook payload: %v" [AError err] ;;
      ret (JSON 400 {[ "error" := "Invalid JSON payload" ]})
    | None =>
      (if (eventType =? "pull_request")%string then
         handlePullRequestEvent event
       else if (eventType =? "workflow_run")%string then
         handleWorkflowRunEvent event
       else
         log_Printf "Ignoring unhandled event type: %s" [AString eventType]) ;;
      ret (JSON 200 {[ "message" := "Webhook received successfully" ]})
    end
  end.

End Relay.

(** ** The notifications as the specification words them

    The two definitions below are not taken from the program: they spell
    out, with plain concatenation, the embed that the specification
    describes for each kind of event.  The theorems compare what the
    handlers send with them. *)

(** "Pull Request <label>"; the sender, the label and the link
    [[#<number>: <title>](<url>)]; the pull request's URL; the fields
    "Repository" and "PR Status". *)
Definition spec_pullRequestEmbed (label : string) (color : Z)
    (event : GitHubEvent.t) : DiscordEmbed.t :=
  let pr := event.(GitHubEvent.PullRequest) in
  let repo := event.(GitHubEvent.Repository) in
  DiscordEmbed.mk
    ("Pull Request " ++ label)
    ("**" ++ event.(GitHubEvent.Sender).(Sender.Login) ++ "** " ++ label ++ " "
     ++ "[#" ++ Itoa pr.(PullRequest.Number) ++ ": " ++ pr.(PullRequest.Title)
     ++ "](" ++ pr.(PullRequest.HTMLURL) ++ ")")
    color
    pr.(PullRequest.HTMLURL)
    [ DiscordEmbedField.mk "Repository"
        ("[" ++ repo.(Repository.FullName) ++ "](" ++ repo.(Repository.HTMLURL) ++ ")")
        true;
      DiscordEmbedField.mk "PR Status" pr.(PullRequest.State) true ].

(** "Workflow Run <conclusion>"; the workflow and its conclusion; the run's
    URL; the fields "Repository" and "Triggered by". *)
Definition spec_workflowRunEmbed (color : Z) (event : GitHubEvent.t)
    : DiscordEmbed.t :=
  let run := event.(GitHubEvent.WorkflowRun) in
  let repo := event.(GitHubEvent.Repository) in
  let sender := event.(GitHubEvent.Sender) in
  DiscordEmbed.mk
    ("Workflow Run " ++ run.(WorkflowRun.Conclusion))
    ("Workflow **" ++ run.(WorkflowRun.Name) ++ "** " ++ run.(WorkflowRun.Conclusion))
    color
    run.(WorkflowRun.HTMLURL)
    [ DiscordEmbedField.mk "Repository"
        ("[" ++ repo.(Repository.FullName) ++ "](" ++ repo.(Repository.HTMLURL) ++ ")")
        true;
      DiscordEmbedField.mk "Triggered by"
        ("[" ++ sender.(Sender.Login) ++ "](" ++ sender.(Sender.HTMLURL) ++ ")")
        true ].

(** [sub] occurs in [s]. *)
Definition contains (s sub : string) : Prop :=
  ∃ before after : string, s = before ++ sub ++ after.

(** The label a pull-request notification displays: the action, except
    that "closed" with merged = true displays as "merged". *)
Definition spec_label (event : GitHubEvent.t) : string :=
  if (event.(GitHubEvent.Action) =? "closed")%string
     && event.(GitHubEvent.PullRequest).(PullRequest.Merged)
  then "merged"
  else event.(GitHubEvent.Action).

(** The request body was read and [json.Unmarshal] stored it into the event
    without error. *)
Definition decodes (c : gin_Context) : Prop :=
  ∃ data : string,
    c.(Request).(Body) = inl data
    ∧ snd (json_Unmarshal data GitHubEvent.zero) = None.

(** The two answers of the webhook endpoint to a body it has read. *)
Definition acknowledgment : Response :=
  JSON 200 {[ "message" := "Webhook received successfully" ]}.

Definition invalidPayload : Response :=
  JSON 400 {[ "error" := "Invalid JSON payload" ]}.

(** Two request bodies that are JSON and are not an event: an object whose
    [action] is a number, and an array. *)
Definition body_action_number : string :=
  "{" ++ quote ++ "action" ++ quote ++ ":1}".

Definition body_array : string := "[]".

(** The color the specification gives for a conclusion. *)
Definition spec_conclusionColor (conclusion : string) : Z :=
  if (conclusion =? "success")%string then 0x2ECC71
  else if (conclusion =? "failure")%string then 0xE74C3C
  else if (conclusion =? "cancelled")%string then 0xF39C12
  else if (conclusion =? "skipped")%string then 0x95A5A6
  else 0xE6E6E6.

(** ** Sample inputs

    The events of the scenarios in the specification, a world in which
    nothing has happened yet and Discord answers 204, and requests that
    carry a given event type and body. *)

Definition sampleWorld : World :=
  mkWorld [] [] (fun _ => PostResponse 204 "").

Definition samplePullRequest (action : string) (merged : bool) : GitHubEvent.t :=
  GitHubEvent.mk action
    (Repository.mk "org/repo" "http://x")
    (Sender.mk "alice" "")
    (PullRequest.mk 42 "Fix bug" "http://x/42" merged "")
    WorkflowRun.zero.

Definition sampleWorkflowRun (action conclusion : string) : GitHubEvent.t :=
  GitHubEvent.mk action Repository.zero Sender.zero PullRequest.zero
    (WorkflowRun.mk "CI" "" conclusion "http://x/run").

Definition sampleRequest (eventType body : string) : gin_Context :=
  mkContext (mkRequest {[ "X-Github-Event" := [eventType] ]} (inl body)).

(** A JSON text written with apostrophes where it has double quotes. *)
Definition jsonText (s : string) : string :=
  string_of_list_ascii
    (map (fun c => if (c =? "'")%char then "034"%char else c)
       (list_ascii_of_string s)).

(** The payloads of the scenarios. *)
Definition openedPayload : string :=
  jsonText "{'action':'opened', 'pull_request':{'number':42, 'title':'Fix bug', 'html_url':'http://x/42'}, 'sender':{'login':'alice'}, 'repository':{'full_name':'org/repo', 'html_url':'http://x'}}".

Definition mergedPayload : string :=
  jsonText "{'action':'closed', 'pull_request':{'number':42, 'title':'Fix bug', 'html_url':'http://x/42', 'merged':true}, 'sender':{'login':'alice'}, 'repository':{'full_name':'org/repo', 'html_url':'http://x'}}".

Definition failedRunPayload : string :=
  jsonText "{'action':'completed', 'workflow_run':{'name':'CI', 'conclusion':'failure', 'html_url':'http://x/run'}}".

Definition devURL : string := "https://discord.test/dev".
Definition testURL : string := "https://discord.test/testing".

(** The request the pull-request handler makes for the "opened" sample, and
    the one the workflow-run handler makes for a failed run. *)
Definition sampleOpenedDelivery : Delivery :=
  let message :=
    DiscordMessage.mk ""
      [spec_pullRequestEmbed "opened" 0x1D82F7 (samplePullRequest "opened" false)] in
  mkDelivery devURL "application/json" (encodeDiscordMessage message) message.

(** ** Startup ([main]) *)

(** [os.Getenv]: the value of the variable, [""] when it is not set. *)
Definition os_Getenv (environ : gmap string string) (key : string) : string :=
  default "" (environ !! key).

(** [godotenv.Load()]: the variables of the file [.env] are added to the
    environment, and a variable that is already set keeps its value.  A
    file that is missing or cannot be parsed ([None]) is an error, and the
    environment stays as it is.  The result is the environment after the
    call and whether the call returned an error. *)
Definition godotenv_Load (dotenv : option (gmap string string))
    (environ : gmap string string) : gmap string string * bool :=
  match dotenv with
  | Some vars => (environ ∪ vars, false)
  | None => (environ, true)
  end.

(** How [main] ends: [log.Fatal] exits with status 1; otherwise the two
    package variables are set and [router.Run] is called with the address,
    to serve requests from then on. *)
Inductive Startup : Type :=
| Exit (status : Z)
| Run (developmentChannelWebhook testingChannelWebhook addr : string).

(** [main], up to the call of [router.Run]: the lines it logs and how it
    ends, from the environment of the process and the content of [.env]. *)
Definition main (environ : gmap string string)
    (dotenv : option (gmap string string)) : list string * Startup :=
  let '(environ, failed) := godotenv_Load dotenv environ in
  let warning :=
    if failed then ["Warning: Error loading .env file"] else [] in
  let developmentChannelWebhook := os_Getenv environ "DISCORD_DEV_WEBHOOK_URL" in
  let testingChannelWebhook := os_Getenv environ "DISCORD_TEST_WEBHOOK_URL" in
  if (developmentChannelWebhook =? "")%string
     || (testingChannelWebhook =? "")%string then
    ((warning
      ++ ["Discord webhook URLs not set in environment variables"])%list,
     Exit 1)
  else
    let port := os_Getenv environ "PORT" in
    let port := if (port =? "")%string then "8088" else port in
    ((warning
      ++ [Sprintf "Starting webhook server on port %s" [AString port]])%list,
     Run developmentChannelWebhook testingChannelWebhook (":" ++ port)).

(** ** The router (package gin)

    A request is answered by a chain of handlers: those given to
    [router.Use], then the handler of the route.  Each handler works on the
    response writer of the request; [c.Next()] runs the handlers after it,
    [c.Abort()] keeps them from running. *)

(** What has been written as the body. *)
Inductive Payload : Type :=
| JSONBody (obj : gmap string string)
| TextBody (text : string).

(** The response writer: the status and the header as set so far, the
    status line and header as sent ([None] until they are written), and the
    body sent. *)
Record ResponseWriter : Type := mkWriter {
  wStatus : Z;
  wHeader : gmap string (list string);
  wWire : option (Z * gmap string (list string));
  wBody : list Payload
}.

(** The state of a chain: the writer, and the index of the handler that is
    running ([c.index]). *)
Record Chain : Type := mkChain { Writer : ResponseWriter; cindex : Z }.

(** An inbound request: method, path, and the part the endpoint reads. *)
Record Call : Type := mkCall {
  Method : string;
  Path : string;
  Context : gin_Context
}.

(** A handler, given the request and what [c.Next()] does from it. *)
Definition HandlerFunc : Type := Call -> (Chain -> M Chain) -> Chain -> M Chain.

Definition abortIndex : Z := 63.

(** [c.Writer.Header().Set(key, value)]. *)
Definition Header_Set (key value : string) (st : Chain) : Chain :=
  let wr := st.(Writer) in
  mkChain
    (mkWriter wr.(wStatus)
       (<[CanonicalMIMEHeaderKey key := [value]]> wr.(wHeader))
       wr.(wWire) wr.(wBody))
    st.(cindex).

(** [c.Status(code)]: the status is changed unless the header is written. *)
Definition WriteHeader (code : Z) (wr : ResponseWriter) : ResponseWriter :=
  if (0 <? code) && negb (wr.(wStatus) =? code) then
    match wr.(wWire) with
    | Some _ => wr
    | None => mkWriter code wr.(wHeader) wr.(wWire) wr.(wBody)
    end
  else wr.

(** [WriteHeaderNow]: the status line and the header are sent, once. *)
Definition WriteHeaderNow (wr : ResponseWriter) : ResponseWriter :=
  match wr.(wWire) with
  | Some _ => wr
  | None =>
    mkWriter wr.(wStatus) wr.(wHeader) (Some (wr.(wStatus), wr.(wHeader)))
      wr.(wBody)
  end.

(** [Write]: the header is sent if it was not, then the data. *)
Definition Write (data : Payload) (wr : ResponseWriter) : ResponseWriter :=
  let wr := WriteHeaderNow wr in
  mkWriter wr.(wStatus) wr.(wHeader) wr.(wWire) (wr.(wBody) ++ [data])%list.

(** No body goes with the statuses 1xx, 204 and 304. *)
Definition bodyAllowedForStatus (code : Z) : bool :=
  negb (((100 <=? code) && (code <=? 199)) || (code =? 204) || (code =? 304)).

(** The content type is set unless the header has one. *)
Definition writeContentType (value : string) (wr : ResponseWriter)
    : ResponseWriter :=
  match wr.(wHeader) !! "Content-Type" with
  | Some (_ :: _) => wr
  | _ =>
    mkWriter wr.(wStatus) (<["Content-Type" := [value]]> wr.(wHeader))
      wr.(wWire) wr.(wBody)
  end.

(** [c.JSON(code, obj)], with the code and the object as a [Response]. *)
Definition c_JSON (r : Response) (st : Chain) : Chain :=
  let wr := WriteHeader r.(Code) st.(Writer) in
  let wr := writeContentType "application/json; charset=utf-8" wr in
  mkChain
    (if bodyAllowedForStatus r.(Code) then Write (JSONBody r.(H)) wr
     else WriteHeaderNow wr)
    st.(cindex).

(** [c.AbortWithStatus(code)]. *)
Definition AbortWithStatus (code : Z) (st : Chain) : Chain :=
  mkChain (WriteHeaderNow (WriteHeader code st.(Writer))) abortIndex.

(** The loop of [c.Next()], at the handler of index [i], of which
    [handlers] is the first: a handler runs when [c.index] has reached it,
    and [c.index] is incremented after it returns. *)
Fixpoint chainLoop (handlers : list HandlerFunc) (i : Z) (call : Call)
    (st : Chain) : M Chain :=
  match handlers with
  | [] => ret st
  | h :: rest =>
    if st.(cindex) =? i then
      st' <- h call
               (fun st0 =>
                  chainLoop rest (i + 1) call
                    (mkChain st0.(Writer) (st0.(cindex) + 1)))
               st ;;
      chainLoop rest (i + 1) call (mkChain st'.(Writer) (st'.(cindex) + 1))
    else chainLoop rest (i + 1) call st
  end.

(** The two handlers [gin.Default()] installs: the logger, which prints a
    line of its own about the request once the rest of the chain has run,
    and the recovery from panics.  Neither touches the response or the
    log of the program. *)
Definition gin_Logger : HandlerFunc := fun _ next st => next st.
Definition gin_Recovery : HandlerFunc := fun _ next st => next st.

Section Router.

Variable developmentChannelWebhook : string.
Variable testingChannelWebhook : string.

(** The function given to [router.Use] (CORS). *)
Definition corsMiddleware : HandlerFunc := fun call next st =>
  let st := Header_Set "Access-Control-Allow-Origin" "*" st in
  let st := Header_Set "Access-Control-Allow-Methods" "POST, GET, OPTIONS" st in
  let st :=
    Header_Set "Access-Control-Allow-Headers"
      "Content-Type, X-GitHub-Event, X-Hub-Signature-256" st in
  if (call.(Method) =? "OPTIONS")%string then ret (AbortWithStatus 204 st)
  else next st.

(** The handler of [POST /webhook/github]. *)
Definition webhookHandler : HandlerFunc := fun call _ st =>
  r <- handleGitHubWebhook developmentChannelWebhook testingChannelWebhook
         call.(Context) ;;
  ret (c_JSON r st).

(** The handler of [GET /health]. *)
Definition healthHandler : HandlerFunc := fun _ _ st =>
  ret (c_JSON (JSON 200 {[ "status" := "ok" ]}) st).

Definition middleware : list HandlerFunc :=
  [gin_Logger; gin_Recovery; corsMiddleware].

Definition routes : list (string * string * HandlerFunc) :=
  [ ("POST", "/webhook/github", webhookHandler);
    ("GET", "/health", healthHandler) ].

Definition freshWriter : ResponseWriter := mkWriter 200 ∅ None [].

(** A request for a route: the chain of the route runs, then the header is
    written if no handler wrote it. *)
Definition serveRoute (h : HandlerFunc) (call : Call) : M ResponseWriter :=
  st <- chainLoop (middleware ++ [h])%list 0 call (mkChain freshWriter 0) ;;
  ret (WriteHeaderNow st.(Writer)).

(** A request for which there is no route ([serveError] with 404): the
    middleware runs with the status set to 404; if it wrote nothing and
    left the status, the default body is written as plain text. *)
Definition serveNoRoute (call : Call) : M ResponseWriter :=
  st <- chainLoop middleware 0 call
          (mkChain (mkWriter 404 ∅ None []) 0) ;;
  let wr := st.(Writer) in
  match wr.(wWire) with
  | Some _ => ret wr
  | None =>
    if wr.(wStatus) =? 404 then
      ret (Write (TextBody "404 page not found")
             (mkWriter wr.(wStatus)
                (<["Content-Type" := ["text/plain"]]> wr.(wHeader))
                wr.(wWire) wr.(wBody)))
    else ret (WriteHeaderNow wr)
  end.

(** [engine.ServeHTTP].  A request whose method and path are those of a
    route gets the chain of the route; a request whose method has no route
    at all gets the chain for no route.  What gin does with another path
    under a method that has routes (a redirect to the path with or without
    a final slash, or the chain for no route) is not modelled: [None]. *)
Definition ServeHTTP (call : Call) : option (M ResponseWriter) :=
  match
    find (fun r => (fst (fst r) =? call.(Method))%string
                   && (snd (fst r) =? call.(Path))%string) routes
  with
  | Some (_, _, h) => Some (serveRoute h call)
  | None =>
    if existsb (fun r => (fst (fst r) =? call.(Method))%string) routes
    then None
    else Some (serveNoRoute call)
  end.

End Router.

(** The status as sent, once the header is written. *)
Definition sentStatus (wr : ResponseWriter) : option Z :=
  option_map fst wr.(wWire).

(** The three headers the middleware sets. *)
Definition corsHeaders : list (string * string) :=
  [ ("Access-Control-Allow-Origin", "*");
    ("Access-Control-Allow-Methods", "POST, GET, OPTIONS");
    ("Access-Control-Allow-Headers",
     "Content-Type, X-GitHub-Event, X-Hub-Signature-256") ].

(** The header as sent. *)
Definition sentHeader (wr : ResponseWriter) : gmap string (list string) :=
  match wr.(wWire) with
  | Some (_, sent) => sent
  | None => ∅
  end.

(** The header has been sent and holds each of the three. *)
Definition carriesCors (wr : ResponseWriter) : Prop :=
  sentStatus wr ≠ None
  ∧ ∀ key value, In (key, value) corsHeaders →
      sentHeader wr !! key = Some [value].

(** ** More sample inputs *)

(** A request whose body cannot be read. *)
Definition unreadableRequest : gin_Context :=
  mkContext (mkRequest {[ "X-Github-Event" := ["pull_request"] ]} (inr ReadError)).

(** An environment that holds the two addresses and no port. *)
Definition sampleEnviron : gmap string string :=
  {[ "DISCORD_DEV_WEBHOOK_URL" := devURL;
     "DISCORD_TEST_WEBHOOK_URL" := testURL ]}.

(** A [.env] that would give other addresses and a port. *)
Definition sampleDotenv : gmap string string :=
  {[ "DISCORD_DEV_WEBHOOK_URL" := "https://elsewhere.test/dev";
     "PORT" := "9000" ]}.

(** ** How a computation may change the world

    [w'] is [w] with lines added to the log and at most [n] requests added
    to the outbox; nothing that was there is removed or altered, and the
    remote end is the same. *)
Definition grows (n : nat) (w w' : World) : Prop :=
  w'.(remote) = w.(remote)
  ∧ ∃ (lines : list LogEntry) (requests : list Delivery),
      w'.(logs) = (w.(logs) ++ lines)%list
      ∧ w'.(outbox) = (w.(outbox) ++ requests)%list
      ∧ (length requests ≤ n)%nat.

(** ** Well-formed output, piece by piece

    The predicates under which the text [Marshal] writes is followed through
    the lexer and the parser of [Unmarshal]'s validity check. *)

(** The [pending] bytes at the head of [s], as far as [s] goes, are
    continuation bytes of UTF-8. *)
Fixpoint contBytes (pending : nat) (s : string) : bool :=
  match pending, s with
  | S k, String c rest => (0x80 <=? byte_val c) && contBytes k rest
  | _, _ => true
  end.

(** Inside a string, the lexer takes [piece] as content. *)
Definition stringRun (piece : string) : Prop :=
  ∀ acc rest,
    lexFrom (LString acc) (piece ++ rest) = lexFrom (LString (acc ++ piece)) rest.

(** [unquote] accepts [piece] in front of whatever it accepts. *)
Definition unquotePiece (piece : string) : Prop :=
  ∀ rest, unquoteLoop 0 rest ≠ None → unquoteLoop 0 (piece ++ rest) ≠ None.

(** Between tokens, the lexer reads [piece] as the tokens [toks]. *)
Definition lexes (piece : string) (toks : list token) : Prop :=
  ∀ rest more, lexFrom LIdle rest = Some more →
    lexFrom LIdle (piece ++ rest) = Some (toks ++ more)%list.

(** The state of the parser after the tokens [toks]. *)
Fixpoint parseRun (st : expect * list frame) (toks : list token)
    : option (expect * list frame) :=
  match toks with
  | [] => Some st
  | t :: rest =>
    match parseStep st t with
    | Some st' => parseRun st' rest
    | None => None
    end
  end.

(** The text [piece] takes the parser from [st] to [st']. *)
Definition consumes (piece : string) (st st' : expect * list frame) : Prop :=
  ∃ toks, lexes piece toks ∧ parseRun st toks = Some st'.

(** Where a value may begin, and where a key may. *)
Definition starts (e : expect) : Prop := e = EValue ∨ e = EArrayFirst.
Definition keyNext (e : expect) : Prop := e = EKey ∨ e = EObjectFirst.

(** [d] more levels fit on the stack. *)
Definition fits (d : nat) (stack : list frame) : Prop :=
  Z.of_nat (length stack) + Z.of_nat d <= maxNestingDepth.

(** [text] is one value, nested at most [d] deep: wherever a value may
    begin, it is read as a value [v], which is then complete. *)
Definition isValue (d : nat) (text : string) : Prop :=
  ∀ e stack, starts e → fits d stack →
    ∃ v, ∀ st', complete v stack = Some st' → consumes text (e, stack) st'.

(** [text] is one or more members of an object, separated by commas. *)
Definition isMembers (d : nat) (text : string) : Prop :=
  ∀ e ms st, keyNext e → fits (S d) st →
    ∃ ms', consumes text (e, FObject ms None :: st)
             (EAfter, FObject ms' None :: st).

(** [text] is the members of an object up to its closing brace; the last
    value may be a number, which only the brace ends. *)
Definition isLastMembers (d : nat) (text : string) : Prop :=
  ∀ e ms stack, keyNext e → fits (S d) stack →
    ∃ v, ∀ st', complete v stack = Some st' →
      consumes (text ++ "}") (e, FObject ms None :: stack) st'.

(** [text] is one or more elements of an array, separated by commas. *)
Definition isElements (d : nat) (text : string) : Prop :=
  ∀ e es st, starts e → fits (S d) st →
    ∃ es', consumes text (e, FArray es :: st) (EAfter, FArray es' :: st).

(** A key that is written and read back as it is. *)
Definition goodKey (name : string) : Prop :=
  lexes (encodeKey name) [TString name; TColon] ∧ unquote name = Some name.

Fixpoint allDigits (s : string) : bool :=
  match s with
  | EmptyString => true
  | String c rest => isDigit c && allDigits rest
  end.

(** * Properties *)

(** ** The model at work *)

Example Sprintf_description :
  Sprintf "**%s** %s [#%d: %s](%s)"
    [AString "alice"; AString "opened"; AInt 42; AString "Fix bug";
     AString "http://x/42"]
  = "**alice** opened [#42: Fix bug](http://x/42)".
Proof. reflexivity. Qed.

Example Sprintf_negative : Sprintf "#%d" [AInt (-7)] = "#-7".
Proof. reflexivity. Qed.

Example canonical_header_name :
  CanonicalMIMEHeaderKey "X-GitHub-Event" = "X-Github-Event".
Proof. reflexivity. Qed.

Example lex_number_then_bracket :
  lex "[-1.5e3]" = Some [TLBracket; TNumber "-1.5e3"; TRBracket].
Proof. reflexivity. Qed.

Example parse_nested :
  parseJSON (jsonText " {'a': [1, true, null, {'b': 'c'}]} ")
  = Some (JObject [("a", JArray [JNumber "1"; JBool true; JNull;
                                 JObject [("b", JString "c")]])]).
Proof. reflexivity. Qed.

Example parse_rejects :
  map parseJSON
    [""; "{"; "[1,]"; "01"; "1 2"; "nul"; "-"; "1."; jsonText "{'a':1,}";
     jsonText "{'a'}"; jsonText "'a"; jsonText "{a:1}"]
  = repeat None 12.
Proof. reflexivity. Qed.

Example unquote_escapes :
  unquote (String backslash "u00e9" ++ String backslash "n"
           ++ String backslash "ud83d" ++ String backslash "ude00")
  = Some (EncodeRune 0xE9 ++ String "010" "" ++ EncodeRune 0x1F600).
Proof. reflexivity. Qed.

Example decode_opened :
  json_Unmarshal openedPayload GitHubEvent.zero
  = (samplePullRequest "opened" false, None).
Proof. reflexivity. Qed.

Example decode_merged :
  json_Unmarshal mergedPayload GitHubEvent.zero
  = (samplePullRequest "closed" true, None).
Proof. reflexivity. Qed.

Example decode_failed_run :
  json_Unmarshal failedRunPayload GitHubEvent.zero
  = (sampleWorkflowRun "completed" "failure", None).
Proof. reflexivity. Qed.

(** Keys are matched without regard to case, [null] leaves a field as it
    is, and the first value that does not fit is the error returned, while
    the fields after it are still stored. *)
Example decode_lenient :
  json_Unmarshal
    (jsonText "{'Action':'opened', 'action':null, 'PULL_REQUEST':{'number':1.5, 'merged':true}, 'other':[1,2]}")
    GitHubEvent.zero
  = (GitHubEvent.mk "opened" Repository.zero Sender.zero
       (PullRequest.mk 0 "" "" true "") WorkflowRun.zero,
     Some (UnmarshalTypeError "number 1.5" "int")).
Proof. reflexivity. Qed.

Example encode_escapes :
  appendString ("<a&b>" ++ String "010" "" ++ String (byte_of 0xFF) "")
  = quote ++ String backslash "u003ca" ++ String backslash "u0026b"
    ++ String backslash "u003e" ++ String backslash "n"
    ++ String backslash "ufffd" ++ quote.
Proof. reflexivity. Qed.

Example encode_failed_run :
  encodeDiscordMessage
    (DiscordMessage.mk ""
       [spec_workflowRunEmbed 0xE74C3C (sampleWorkflowRun "completed" "failure")])
  = jsonText "{'embeds':[{'title':'Workflow Run failure','description':'Workflow **CI** failure','color':15158332,'url':'http://x/run','fields':[{'name':'Repository','value':'[]()','inline':true},{'name':'Triggered by','value':'[]()','inline':true}]}]}".
Proof. reflexivity. Qed.

(** The first scenario, from the request to the answer: one request to the
    development address, and the acknowledgment. *)
Example scenario_opened :
  let '(response, w) :=
    handleGitHubWebhook devURL testURL
      (sampleRequest "pull_request" openedPayload) sampleWorld in
  response = acknowledgment
  ∧ w.(outbox) = [sampleOpenedDelivery]
  ∧ w.(logs)
    = [ Printf "Received GitHub webhook event: %s" [AString "pull_request"];
        Printf "Processing pull request event: %s" [AString "opened"];
        Printf "Discord message sent successfully" [] ].
Proof. by vm_compute. Qed.

(** Without the header the event is acknowledged and nothing is sent. *)
Example scenario_no_header :
  let '(response, w) :=
    handleGitHubWebhook devURL testURL
      (mkContext (mkRequest ∅ (inl openedPayload))) sampleWorld in
  response = acknowledgment
  ∧ w.(outbox) = []
  ∧ w.(logs)
    = [ Printf "Received GitHub webhook event: %s" [AString ""];
        Printf "Ignoring unhandled event type: %s" [AString ""] ].
Proof. by vm_compute. Qed.

(** ** Strings *)

Lemma append_empty_r (s : string) : s ++ "" = s.
Proof. induction s as [|c s IH]; [reflexivity | exact (f_equal (String c) IH)]. Qed.

Lemma eqb_false_of_ne (a b : string) : a ≠ b → (a =? b)%string = false.
Proof. intros Hne. by apply String.eqb_neq. Qed.

Lemma append_assoc (a b c : string) : (a ++ b) ++ c = a ++ b ++ c.
Proof. induction a as [|x a IH]; [reflexivity | exact (f_equal (String x) IH)]. Qed.

Lemma contains_here (sub after : string) : contains (sub ++ after) sub.
Proof. by exists "", after. Qed.

Lemma contains_end (sub : string) : contains sub sub.
Proof. exists "", "". simpl. by rewrite append_empty_r. Qed.

Lemma contains_skip (s sub skipped : string) :
  contains s sub → contains (skipped ++ s) sub.
Proof.
  intros (before & after & ->). exists (skipped ++ before), after.
  by rewrite append_assoc.
Qed.

(** ** What a computation adds to the outbox *)

Lemma log_Printf_run format args w :
  log_Printf format args w
  = (tt, mkWorld (w.(logs) ++ [Printf format args]) w.(outbox) w.(remote)).
Proof. reflexivity. Qed.

Lemma sendDiscordMessage_outbox webhookURL message w :
  (snd (sendDiscordMessage webhookURL message w)).(outbox)
  = (w.(outbox)
     ++ [mkDelivery webhookURL "application/json"
           (encodeDiscordMessage message) message])%list.
Proof.
  unfold sendDiscordMessage, json_Marshal, bind, http_Post; simpl.
  destruct (remote w _) as [|code answer]; simpl; [reflexivity|].
  by destruct ((code <? 200) || (code >=? 300)).
Qed.

Lemma deliveries_of_outbox {A : Type} (m : M A) w ds :
  (snd (m w)).(outbox) = (w.(outbox) ++ ds)%list → deliveries m w = ds.
Proof. intros E. unfold deliveries. rewrite E. apply drop_app_length. Qed.

(** ** The set of actions the pull-request handler processes *)

Lemma index_actionsToProcess (a : string) :
  index (<["opened" := true]> (<["reopened" := true]>
          (<["ready_for_review" := true]> (<["closed" := true]> ∅)))) a
  = ((a =? "opened") || (a =? "reopened")
     || (a =? "ready_for_review") || (a =? "closed"))%string.
Proof.
  unfold index.
  destruct (String.eqb_spec a "opened") as [->|H1]; [by rewrite lookup_insert_eq|].
  rewrite lookup_insert_ne; [|congruence].
  destruct (String.eqb_spec a "reopened") as [->|H2]; [by rewrite lookup_insert_eq|].
  rewrite lookup_insert_ne; [|congruence].
  destruct (String.eqb_spec a "ready_for_review") as [->|H3];
    [by rewrite lookup_insert_eq|].
  rewrite lookup_insert_ne; [|congruence].
  destruct (String.eqb_spec a "closed") as [->|H4]; [by rewrite lookup_insert_eq|].
  rewrite lookup_insert_ne; [|congruence].
  by rewrite lookup_empty.
Qed.

(** ** The three ways through the pull-request handler *)

Section PullRequestRuns.

Variable developmentChannelWebhook : string.
Variable event : GitHubEvent.t.
Variable w : World.

Local Abbreviation action := (event.(GitHubEvent.Action)).
Local Abbreviation merged := (event.(GitHubEvent.PullRequest).(PullRequest.Merged)).
Local Abbreviation w1 :=
  (snd (log_Printf "Processing pull request event: %s" [AString action] w)).

Lemma handlePullRequestEvent_ignored :
  ((action =? "opened") || (action =? "reopened")
   || (action =? "ready_for_review") || (action =? "closed"))%string = false →
  handlePullRequestEvent developmentChannelWebhook event w
  = log_Printf "Ignoring PR action: %s" [AString action] w1.
Proof.
  intros Hno. unfold handlePullRequestEvent, bind; simpl.
  rewrite index_actionsToProcess, Hno. reflexivity.
Qed.

Lemma handlePullRequestEvent_unmerged :
  action = "closed" → merged = false →
  handlePullRequestEvent developmentChannelWebhook event w
  = log_Printf "PR was closed without merging, not sending notification" [] w1.
Proof.
  intros Ha Hm. unfold handlePullRequestEvent, bind; simpl.
  rewrite index_actionsToProcess, Ha, Hm. reflexivity.
Qed.

Lemma handlePullRequestEvent_notifies (label : string) (color : Z) :
  (action = "closed" ∧ merged = true ∧ label = "merged" ∧ color = 0x6E48CD)
  ∨ ((action = "opened" ∨ action = "reopened" ∨ action = "ready_for_review")
     ∧ label = action ∧ color = 0x1D82F7) →
  handlePullRequestEvent developmentChannelWebhook event w
  = sendDiscordMessage developmentChannelWebhook
      (DiscordMessage.mk "" [spec_pullRequestEmbed label color event]) w1.
Proof.
  intros H. unfold handlePullRequestEvent, bind, spec_pullRequestEmbed; simpl.
  rewrite index_actionsToProcess, !append_empty_r.
  destruct H as [(Ha & Hm & -> & ->) | (Ha & -> & ->)].
  - rewrite Ha, Hm. reflexivity.
  - destruct Ha as [Ha | [Ha | Ha]]; rewrite Ha; reflexivity.
Qed.

End PullRequestRuns.

(** ** The two ways through the workflow-run handler *)

Section WorkflowRunRuns.

Variable testingChannelWebhook : string.
Variable event : GitHubEvent.t.
Variable w : World.

Local Abbreviation action := (event.(GitHubEvent.Action)).
Local Abbreviation conclusion :=
  (event.(GitHubEvent.WorkflowRun).(WorkflowRun.Conclusion)).
Local Abbreviation w1 :=
  (snd (log_Printf "Processing workflow run event: %s" [AString action] w)).

Lemma handleWorkflowRunEvent_ignored :
  action ≠ "completed" →
  handleWorkflowRunEvent testingChannelWebhook event w
  = log_Printf "Ignoring workflow run action: %s" [AString action] w1.
Proof.
  intros Hne. unfold handleWorkflowRunEvent, bind; simpl.
  rewrite (eqb_false_of_ne _ _ Hne). reflexivity.
Qed.

Lemma handleWorkflowRunEvent_notifies :
  action = "completed" →
  handleWorkflowRunEvent testingChannelWebhook event w
  = sendDiscordMessage testingChannelWebhook
      (DiscordMessage.mk ""
         [spec_workflowRunEmbed (spec_conclusionColor conclusion) event]) w1.
Proof.
  intros Ha.
  unfold handleWorkflowRunEvent, bind, spec_workflowRunEmbed, spec_conclusionColor.
  simpl. rewrite !append_empty_r, Ha. reflexivity.
Qed.

End WorkflowRunRuns.

(** An action outside the four names of the map fails each comparison. *)
Lemma not_processed (a : string) :
  a ≠ "opened" → a ≠ "reopened" → a ≠ "ready_for_review" → a ≠ "closed" →
  ((a =? "opened") || (a =? "reopened")
   || (a =? "ready_for_review") || (a =? "closed"))%string = false.
Proof. intros. by rewrite !eqb_false_of_ne. Qed.

(** ** The pull-request handler *)

(** C1.  For a pull-request event whose action is "opened", "reopened" or
    "ready_for_review", the handler adds exactly one request to the outbox;
    it goes to the development address; the message has one embed, of color
    0x1D82F7, and the label shown in its title and in its description is
    the action itself. *)
Theorem pull_request_opening_notifies
    (developmentChannelWebhook : string) (event : GitHubEvent.t) (w : World) :
  event.(GitHubEvent.Action) = "opened"
  ∨ event.(GitHubEvent.Action) = "reopened"
  ∨ event.(GitHubEvent.Action) = "ready_for_review" →
  ∃ (d : Delivery) (embed : DiscordEmbed.t),
    (snd (handlePullRequestEvent developmentChannelWebhook event w)).(outbox)
      = (w.(outbox) ++ [d])%list
    ∧ d.(url) = developmentChannelWebhook
    ∧ d.(message).(DiscordMessage.Embeds) = [embed]
    ∧ embed.(DiscordEmbed.Color) = 0x1D82F7
    ∧ embed.(DiscordEmbed.Title) = "Pull Request " ++ event.(GitHubEvent.Action)
    ∧ embed
      = spec_pullRequestEmbed event.(GitHubEvent.Action) 0x1D82F7 event.
Proof.
  intros Ha.
  rewrite (handlePullRequestEvent_notifies _ _ _ event.(GitHubEvent.Action) 0x1D82F7)
    by (right; auto).
  rewrite sendDiscordMessage_outbox.
  eexists _, _. repeat split.
Qed.

(** C2.  For a pull-request event with action "closed" and merged = true,
    the handler adds exactly one request to the outbox; its message has one
    embed, of color 0x6E48CD, whose label is "merged" and whose title is
    "Pull Request merged". *)
Theorem pull_request_merged_notifies
    (developmentChannelWebhook : string) (event : GitHubEvent.t) (w : World) :
  event.(GitHubEvent.Action) = "closed" →
  event.(GitHubEvent.PullRequest).(PullRequest.Merged) = true →
  ∃ (d : Delivery) (embed : DiscordEmbed.t),
    (snd (handlePullRequestEvent developmentChannelWebhook event w)).(outbox)
      = (w.(outbox) ++ [d])%list
    ∧ d.(message).(DiscordMessage.Embeds) = [embed]
    ∧ embed.(DiscordEmbed.Color) = 0x6E48CD
    ∧ embed.(DiscordEmbed.Title) = "Pull Request merged"
    ∧ embed = spec_pullRequestEmbed "merged" 0x6E48CD event.
Proof.
  intros Ha Hm.
  rewrite (handlePullRequestEvent_notifies _ _ _ "merged" 0x6E48CD)
    by (left; auto).
  rewrite sendDiscordMessage_outbox.
  eexists _, _. repeat split.
Qed.

(** C3.  For a pull-request event whose action is none of "opened",
    "reopened", "ready_for_review", "closed", and for one with action
    "closed" and merged = false, the handler sends nothing: the outbox after
    the call is the outbox before it. *)
Theorem pull_request_dropped
    (developmentChannelWebhook : string) (event : GitHubEvent.t) (w : World) :
  (event.(GitHubEvent.Action) ≠ "opened"
   ∧ event.(GitHubEvent.Action) ≠ "reopened"
   ∧ event.(GitHubEvent.Action) ≠ "ready_for_review"
   ∧ event.(GitHubEvent.Action) ≠ "closed")
  ∨ (event.(GitHubEvent.Action) = "closed"
     ∧ event.(GitHubEvent.PullRequest).(PullRequest.Merged) = false) →
  (snd (handlePullRequestEvent developmentChannelWebhook event w)).(outbox)
    = w.(outbox)
  ∧ deliveries (handlePullRequestEvent developmentChannelWebhook event) w = [].
Proof.
  intros H.
  assert (E : (snd (handlePullRequestEvent developmentChannelWebhook event w)).(outbox)
              = w.(outbox)).
  { destruct H as [(H1 & H2 & H3 & H4) | (Ha & Hm)].
    - rewrite handlePullRequestEvent_ignored by by apply not_processed.
      reflexivity.
    - rewrite handlePullRequestEvent_unmerged by done. reflexivity. }
  split; [exact E|].
  apply deliveries_of_outbox. rewrite E. symmetry. apply app_nil_r.
Qed.

(** ** The workflow-run handler *)

(** C4.  For a workflow-run event with action "completed", the handler adds
    exactly one request to the outbox; it goes to the testing address; the
    color of its embed depends on the conclusion alone: 0x2ECC71 for
    "success", 0xE74C3C for "failure", 0xF39C12 for "cancelled", 0x95A5A6
    for "skipped", and 0xE6E6E6 for every other conclusion, the empty one
    included. *)
Theorem workflow_run_completed_notifies
    (testingChannelWebhook : string) (event : GitHubEvent.t) (w : World) :
  event.(GitHubEvent.Action) = "completed" →
  let conclusion := event.(GitHubEvent.WorkflowRun).(WorkflowRun.Conclusion) in
  ∃ (d : Delivery) (embed : DiscordEmbed.t),
    (snd (handleWorkflowRunEvent testingChannelWebhook event w)).(outbox)
      = (w.(outbox) ++ [d])%list
    ∧ d.(url) = testingChannelWebhook
    ∧ d.(message).(DiscordMessage.Embeds) = [embed]
    ∧ embed.(DiscordEmbed.Color) = spec_conclusionColor conclusion
    ∧ (conclusion = "success" → embed.(DiscordEmbed.Color) = 0x2ECC71)
    ∧ (conclusion = "failure" → embed.(DiscordEmbed.Color) = 0xE74C3C)
    ∧ (conclusion = "cancelled" → embed.(DiscordEmbed.Color) = 0xF39C12)
    ∧ (conclusion = "skipped" → embed.(DiscordEmbed.Color) = 0x95A5A6)
    ∧ (conclusion ≠ "success" → conclusion ≠ "failure" →
       conclusion ≠ "cancelled" → conclusion ≠ "skipped" →
       embed.(DiscordEmbed.Color) = 0xE6E6E6).
Proof.
  intros Ha conclusion.
  rewrite handleWorkflowRunEvent_notifies by done.
  rewrite sendDiscordMessage_outbox.
  eexists _, _. repeat split; simpl; fold conclusion; unfold spec_conclusionColor.
  - by intros ->.
  - by intros ->.
  - by intros ->.
  - by intros ->.
  - intros H1 H2 H3 H4. by rewrite !eqb_false_of_ne.
Qed.

(** C5.  For a workflow-run event whose action is not "completed" ("queued"
    and "in_progress" for instance), the handler sends nothing. *)
Theorem workflow_run_dropped
    (testingChannelWebhook : string) (event : GitHubEvent.t) (w : World) :
  event.(GitHubEvent.Action) ≠ "completed" →
  (snd (handleWorkflowRunEvent testingChannelWebhook event w)).(outbox)
    = w.(outbox)
  ∧ deliveries (handleWorkflowRunEvent testingChannelWebhook event) w = [].
Proof.
  intros Hne.
  assert (E : (snd (handleWorkflowRunEvent testingChannelWebhook event w)).(outbox)
              = w.(outbox)).
  { rewrite handleWorkflowRunEvent_ignored by done. reflexivity. }
  split; [exact E|].
  apply deliveries_of_outbox. rewrite E. symmetry. apply app_nil_r.
Qed.

(** ** Everything the handlers send *)

(** The request that carries [message] to [webhookURL]. *)
Lemma deliveries_sendDiscordMessage webhookURL message w :
  deliveries (sendDiscordMessage webhookURL message) w
  = [mkDelivery webhookURL "application/json"
       (encodeDiscordMessage message) message].
Proof. apply deliveries_of_outbox, sendDiscordMessage_outbox. Qed.

Lemma deliveries_log_Printf format args w :
  deliveries (log_Printf format args) w = [].
Proof. apply deliveries_of_outbox. symmetry. apply app_nil_r. Qed.

(** What the pull-request handler sends, in every case. *)
Lemma pull_request_deliveries
    (developmentChannelWebhook : string) (event : GitHubEvent.t) (w : World) :
  let action := event.(GitHubEvent.Action) in
  let merged := event.(GitHubEvent.PullRequest).(PullRequest.Merged) in
  let message (color : Z) :=
    DiscordMessage.mk "" [spec_pullRequestEmbed (spec_label event) color event] in
  deliveries (handlePullRequestEvent developmentChannelWebhook event) w
  = if (action =? "closed")%string then
      if merged then
        [mkDelivery developmentChannelWebhook "application/json"
           (encodeDiscordMessage (message 0x6E48CD)) (message 0x6E48CD)]
      else []
    else if ((action =? "opened") || (action =? "reopened")
             || (action =? "ready_for_review"))%string then
      [mkDelivery developmentChannelWebhook "application/json"
         (encodeDiscordMessage (message 0x1D82F7)) (message 0x1D82F7)]
    else [].
Proof.
  intros action merged message. subst message. unfold spec_label.
  fold action merged. apply deliveries_of_outbox.
  destruct (String.eqb_spec action "closed") as [Hc|Hc].
  - destruct merged eqn:Hm.
    + rewrite (handlePullRequestEvent_notifies _ _ _ "merged" 0x6E48CD)
        by (left; auto).
      by rewrite sendDiscordMessage_outbox.
    + rewrite handlePullRequestEvent_unmerged by done.
      symmetry. apply app_nil_r.
  - destruct ((action =? "opened") || (action =? "reopened")
              || (action =? "ready_for_review"))%string eqn:Hp.
    + rewrite (handlePullRequestEvent_notifies _ _ _ action 0x1D82F7).
      * by rewrite sendDiscordMessage_outbox.
      * right. repeat split.
        apply orb_prop in Hp as [Hp|Hp]; [apply orb_prop in Hp as [Hp|Hp]|];
          apply String.eqb_eq in Hp; auto.
    + rewrite handlePullRequestEvent_ignored.
      * symmetry. apply app_nil_r.
      * fold action. rewrite Hp. by apply eqb_false_of_ne.
Qed.

(** What the workflow-run handler sends, in every case. *)
Lemma workflow_run_deliveries
    (testingChannelWebhook : string) (event : GitHubEvent.t) (w : World) :
  let message :=
    DiscordMessage.mk ""
      [spec_workflowRunEmbed
         (spec_conclusionColor
            event.(GitHubEvent.WorkflowRun).(WorkflowRun.Conclusion)) event] in
  deliveries (handleWorkflowRunEvent testingChannelWebhook event) w
  = if (event.(GitHubEvent.Action) =? "completed")%string then
      [mkDelivery testingChannelWebhook "application/json"
         (encodeDiscordMessage message) message]
    else [].
Proof.
  intros message. apply deliveries_of_outbox.
  destruct (String.eqb_spec event.(GitHubEvent.Action) "completed") as [Hc|Hc].
  - rewrite handleWorkflowRunEvent_notifies by done.
    by rewrite sendDiscordMessage_outbox.
  - rewrite handleWorkflowRunEvent_ignored by done.
    symmetry. apply app_nil_r.
Qed.

(** A request [d] known to be among those a handler sends: one case for
    each way through the handler that sends something, with [d] replaced by
    the request sent there. *)
Ltac sent_request Hd :=
  first [ rewrite pull_request_deliveries in Hd
        | rewrite workflow_run_deliveries in Hd ];
  repeat match type of Hd with
         | In _ (if ?b then _ else _) => destruct b
         end;
  simpl in Hd; try contradiction; destruct Hd as [<-|[]].

(** C8.  Every notification the pull-request handler sends is one embed
    with title "Pull Request <label>"; its description contains the sender
    login, the label and the link [[#<number>: <title>](<url>)]; the embed's
    URL is the pull request's; its fields are "Repository" (the full name
    linked to the repository URL, inline) and "PR Status" (the state as it
    came, inline). *)
Theorem pull_request_notification_content
    (developmentChannelWebhook : string) (event : GitHubEvent.t) (w : World)
    (d : Delivery) :
  In d (deliveries (handlePullRequestEvent developmentChannelWebhook event) w) →
  let pr := event.(GitHubEvent.PullRequest) in
  let repo := event.(GitHubEvent.Repository) in
  let label := spec_label event in
  let link :=
    "[#" ++ Itoa pr.(PullRequest.Number) ++ ": " ++ pr.(PullRequest.Title)
    ++ "](" ++ pr.(PullRequest.HTMLURL) ++ ")" in
  ∃ embed : DiscordEmbed.t,
    d.(message) = DiscordMessage.mk "" [embed]
    ∧ embed.(DiscordEmbed.Title) = "Pull Request " ++ label
    ∧ embed.(DiscordEmbed.Description)
      = "**" ++ event.(GitHubEvent.Sender).(Sender.Login) ++ "** " ++ label
        ++ " " ++ link
    ∧ contains embed.(DiscordEmbed.Description)
        event.(GitHubEvent.Sender).(Sender.Login)
    ∧ contains embed.(DiscordEmbed.Description) label
    ∧ contains embed.(DiscordEmbed.Description) link
    ∧ embed.(DiscordEmbed.URL) = pr.(PullRequest.HTMLURL)
    ∧ embed.(DiscordEmbed.Fields)
      = [ DiscordEmbedField.mk "Repository"
            ("[" ++ repo.(Repository.FullName) ++ "]("
             ++ repo.(Repository.HTMLURL) ++ ")") true;
          DiscordEmbedField.mk "PR Status" pr.(PullRequest.State) true ].
Proof.
  intros Hd pr repo label link.
  assert (Hm : ∃ color, d.(message)
                 = DiscordMessage.mk "" [spec_pullRequestEmbed label color event]).
  { sent_request Hd; by eexists. }
  destruct Hm as [color Hm].
  exists (spec_pullRequestEmbed label color event).
  split; [exact Hm|]. repeat split; simpl.
  - apply (contains_skip _ _ "**"), contains_here.
  - apply (contains_skip _ _ "**"), contains_skip, (contains_skip _ _ "** ").
    apply contains_here.
  - apply (contains_skip _ _ "**"), contains_skip, (contains_skip _ _ "** ").
    apply contains_skip, (contains_skip _ _ " "), contains_end.
Qed.

(** C9.  Every notification either handler sends has no top-level content
    and exactly one embed, and that embed has exactly two fields, both
    inline. *)
Theorem notification_shape
    (developmentChannelWebhook testingChannelWebhook : string)
    (event : GitHubEvent.t) (w : World) (d : Delivery) :
  In d (deliveries (handlePullRequestEvent developmentChannelWebhook event) w)
  ∨ In d (deliveries (handleWorkflowRunEvent testingChannelWebhook event) w) →
  d.(message).(DiscordMessage.Content) = ""
  ∧ ∃ (embed : DiscordEmbed.t) (f1 f2 : DiscordEmbedField.t),
      d.(message).(DiscordMessage.Embeds) = [embed]
      ∧ embed.(DiscordEmbed.Fields) = [f1; f2]
      ∧ f1.(DiscordEmbedField.Inline) = true
      ∧ f2.(DiscordEmbedField.Inline) = true.
Proof.
  intros [Hd|Hd]; sent_request Hd; simpl;
    (split; [reflexivity | by eexists _, _, _]).
Qed.

(** C10.  What each handler sends is a function of the event and of the
    handler's address alone: on equal events, in any two worlds (whatever
    was logged or sent before, whatever the remote end answers), the same
    requests are made, with the same messages; the pull-request handler
    sends to the development address only and the workflow-run handler to
    the testing address only. *)
Theorem handlers_deterministic
    (developmentChannelWebhook testingChannelWebhook : string)
    (event1 event2 : GitHubEvent.t) (w1 w2 : World) :
  event1 = event2 →
  deliveries (handlePullRequestEvent developmentChannelWebhook event1) w1
    = deliveries (handlePullRequestEvent developmentChannelWebhook event2) w2
  ∧ deliveries (handleWorkflowRunEvent testingChannelWebhook event1) w1
    = deliveries (handleWorkflowRunEvent testingChannelWebhook event2) w2
  ∧ (∀ d, In d (deliveries
                  (handlePullRequestEvent developmentChannelWebhook event1) w1) →
          d.(url) = developmentChannelWebhook)
  ∧ (∀ d, In d (deliveries
                  (handleWorkflowRunEvent testingChannelWebhook event1) w1) →
          d.(url) = testingChannelWebhook).
Proof.
  intros <-. repeat split.
  - by rewrite !pull_request_deliveries.
  - by rewrite !workflow_run_deliveries.
  - intros d Hd. by sent_request Hd.
  - intros d Hd. by sent_request Hd.
Qed.

(** ** The dispatcher *)

Lemma json_Unmarshal_invalid (data : string) (event : GitHubEvent.t) :
  ¬ validJSON data → json_Unmarshal data event = (event, Some SyntaxError).
Proof.
  unfold validJSON, json_Unmarshal. intros Hn.
  destruct (parseJSON data); [|reflexivity]. by destruct Hn.
Qed.

Lemma json_Unmarshal_valid (data : string) (event : GitHubEvent.t) :
  snd (json_Unmarshal data event) = None → validJSON data.
Proof.
  unfold validJSON, json_Unmarshal. by destruct (parseJSON data).
Qed.

Section DispatcherRuns.

Variable developmentChannelWebhook testingChannelWebhook : string.
Variable c : gin_Context.
Variable w : World.

Local Abbreviation eventType := (GetHeader c "X-GitHub-Event").
Local Abbreviation received :=
  (Printf "Received GitHub webhook event: %s" [AString eventType]).
Local Abbreviation run :=
  (handleGitHubWebhook developmentChannelWebhook testingChannelWebhook c w).

Lemma handleGitHubWebhook_unreadable (err : error) :
  c.(Request).(Body) = inr err →
  run = (JSON 400 {[ "error" := "Unable to read request body" ]},
         mkWorld
           ((w.(logs) ++ [received])
            ++ [Printf "Error reading request body: %v" [AError err]])
           w.(outbox) w.(remote)).
Proof.
  intros Hb. unfold handleGitHubWebhook, bind, io_ReadAll. by rewrite Hb.
Qed.

Lemma handleGitHubWebhook_undecodable (data : string) (err : error) :
  c.(Request).(Body) = inl data →
  snd (json_Unmarshal data GitHubEvent.zero) = Some err →
  run = (invalidPayload,
         mkWorld
           ((w.(logs) ++ [received])
            ++ [Printf "Error parsing webhook payload: %v" [AError err]])
           w.(outbox) w.(remote)).
Proof.
  intros Hb He. unfold handleGitHubWebhook, bind, io_ReadAll. rewrite Hb.
  destruct (json_Unmarshal data GitHubEvent.zero) as [event failure].
  simpl in He. by rewrite He.
Qed.

Lemma handleGitHubWebhook_decoded (data : string) :
  c.(Request).(Body) = inl data →
  snd (json_Unmarshal data GitHubEvent.zero) = None →
  fst run = acknowledgment.
Proof.
  intros Hb He. unfold handleGitHubWebhook, bind, io_ReadAll. rewrite Hb.
  destruct (json_Unmarshal data GitHubEvent.zero) as [event failure].
  simpl in He. rewrite He.
  unfold log_Printf at 1.
  destruct (if (eventType =? "pull_request")%string then _ else _) as [[] w'].
  reflexivity.
Qed.

End DispatcherRuns.

(** A decoded event goes to the handler the header names, and to none when
    the header names neither: what the endpoint sends is what that handler
    sends. *)
Lemma handleGitHubWebhook_deliveries
    (developmentChannelWebhook testingChannelWebhook : string)
    (c : gin_Context) (w : World) (data : string) (event : GitHubEvent.t) :
  c.(Request).(Body) = inl data →
  json_Unmarshal data GitHubEvent.zero = (event, None) →
  deliveries
    (handleGitHubWebhook developmentChannelWebhook testingChannelWebhook c) w
  = if (GetHeader c "X-GitHub-Event" =? "pull_request")%string then
      deliveries (handlePullRequestEvent developmentChannelWebhook event) w
    else if (GetHeader c "X-GitHub-Event" =? "workflow_run")%string then
      deliveries (handleWorkflowRunEvent testingChannelWebhook event) w
    else [].
Proof.
  intros Hb He. unfold deliveries at 1.
  unfold handleGitHubWebhook, bind, io_ReadAll. rewrite Hb, He.
  set (w1 := snd (log_Printf "Received GitHub webhook event: %s"
                    [AString (GetHeader c "X-GitHub-Event")] w)).
  change (log_Printf "Received GitHub webhook event: %s"
            [AString (GetHeader c "X-GitHub-Event")] w) with (tt, w1).
  cbv beta iota.
  change (length (outbox w)) with (length (outbox w1)).
  destruct (GetHeader c "X-GitHub-Event" =? "pull_request")%string.
  - transitivity
      (deliveries (handlePullRequestEvent developmentChannelWebhook event) w1).
    + unfold deliveries.
      by destruct (handlePullRequestEvent _ event w1) as [[] w'].
    + by rewrite !pull_request_deliveries.
  - destruct (GetHeader c "X-GitHub-Event" =? "workflow_run")%string.
    + transitivity
        (deliveries (handleWorkflowRunEvent testingChannelWebhook event) w1).
      * unfold deliveries.
        by destruct (handleWorkflowRunEvent _ event w1) as [[] w'].
      * by rewrite !workflow_run_deliveries.
    + apply drop_all.
Qed.

(** C6.  When the body of a request to the webhook endpoint is not valid
    JSON, the answer is 400 with the JSON object [{"error": "Invalid JSON
    payload"}]; nothing is sent; and no handler runs: the call logs its own
    two lines and nothing else, where each handler would have logged a
    "Processing ..." line first. *)
Theorem invalid_json_rejected
    (developmentChannelWebhook testingChannelWebhook : string)
    (c : gin_Context) (data : string) (w : World) :
  c.(Request).(Body) = inl data →
  ¬ validJSON data →
  let run := handleGitHubWebhook developmentChannelWebhook testingChannelWebhook c in
  fst (run w) = JSON 400 {[ "error" := "Invalid JSON payload" ]}
  ∧ (fst (run w)).(Code) = 400
  ∧ (snd (run w)).(outbox) = w.(outbox)
  ∧ deliveries run w = []
  ∧ logged run w
    = [ Printf "Received GitHub webhook event: %s"
          [AString (GetHeader c "X-GitHub-Event")];
        Printf "Error parsing webhook payload: %v" [AError SyntaxError] ].
Proof.
  intros Hb Hn run.
  assert (E := handleGitHubWebhook_undecodable
                 developmentChannelWebhook testingChannelWebhook c w data
                 SyntaxError Hb).
  rewrite json_Unmarshal_invalid in E by done. specialize (E eq_refl).
  fold run in E. unfold deliveries, logged. rewrite E. simpl.
  repeat split.
  - apply drop_all.
  - rewrite <- app_assoc. apply drop_app_length.
Qed.

(** C7, as the program has it.  When the body has been read and
    [json.Unmarshal] stores it into the event without error, the answer is
    200 with the JSON object [{"message": "Webhook received successfully"}],
    whatever the [X-GitHub-Event] header holds (the request [c] is
    arbitrary) and whether or not a handler sent anything; such a body is
    valid JSON.  The answer is 400 only when the body could not be read or
    [json.Unmarshal] returned an error, which it does for a text that is
    not JSON and also for JSON that does not fit the event. *)
Theorem decoded_request_acknowledged
    (developmentChannelWebhook testingChannelWebhook : string)
    (c : gin_Context) (w : World) :
  let response :=
    fst (handleGitHubWebhook developmentChannelWebhook testingChannelWebhook c w) in
  (decodes c → response = acknowledgment ∧ response.(Code) = 200)
  ∧ (decodes c → ∃ data, c.(Request).(Body) = inl data ∧ validJSON data)
  ∧ (response.(Code) = 400 →
     (∃ err, c.(Request).(Body) = inr err)
     ∨ (∃ data err, c.(Request).(Body) = inl data
                    ∧ snd (json_Unmarshal data GitHubEvent.zero) = Some err))
  ∧ (response.(Code) = 200 ∨ response.(Code) = 400).
Proof.
  intros response. subst response.
  destruct (c.(Request).(Body)) as [data|err] eqn:Hb.
  - destruct (snd (json_Unmarshal data GitHubEvent.zero)) as [err|] eqn:He.
    + assert (Hno : ¬ decodes c).
      { intros (data' & Hd & He'). congruence. }
      rewrite (handleGitHubWebhook_undecodable _ _ _ _ data err Hb He).
      split; [by intros ?|]. split; [by intros ?|].
      split; [|by right].
      intros _. right. by exists data, err.
    + rewrite (handleGitHubWebhook_decoded _ _ _ _ data Hb He).
      split; [done|]. split; [|split; [discriminate | by left]].
      intros _. exists data. split; [done|]. by eapply json_Unmarshal_valid.
  - assert (Hno : ¬ decodes c).
    { intros (data' & Hd & He'). congruence. }
    rewrite (handleGitHubWebhook_unreadable _ _ _ _ err Hb).
    split; [by intros ?|]. split; [by intros ?|].
    split; [|by right].
    intros _. left. by exists err.
Qed.

(** C7, as the specification has it, fails: a body that is valid JSON is
    answered with 400 when a value in it does not fit the event.  Here the
    body is [{"action":1}], and then [[]]. *)
Lemma valid_json_answered_400 :
  validJSON body_action_number
  ∧ (fst (handleGitHubWebhook devURL testURL
            (sampleRequest "pull_request" body_action_number) sampleWorld)).(Code)
    = 400
  ∧ (fst (handleGitHubWebhook devURL testURL
            (sampleRequest "pull_request" body_action_number) sampleWorld)).(Code)
    ≠ 200
  ∧ validJSON body_array
  ∧ fst (handleGitHubWebhook devURL testURL
           (sampleRequest "workflow_run" body_array) sampleWorld)
    = invalidPayload.
Proof.
  split; [|split; [|split; [|split]]].
  - unfold validJSON. by vm_compute.
  - by vm_compute.
  - by vm_compute.
  - unfold validJSON. by vm_compute.
  - by vm_compute.
Qed.

(** ** The theorems at the scenarios of the specification *)

(** The "opened" scenario: one request, to the development address, blue,
    titled "Pull Request opened". *)
Lemma pull_request_opening_notifies_witness :
  let event := samplePullRequest "opened" false in
  (event.(GitHubEvent.Action) = "opened"
   ∨ event.(GitHubEvent.Action) = "reopened"
   ∨ event.(GitHubEvent.Action) = "ready_for_review")
  ∧ ∃ (d : Delivery) (embed : DiscordEmbed.t),
      (snd (handlePullRequestEvent devURL event sampleWorld)).(outbox) = [d]
      ∧ d.(url) = devURL
      ∧ d.(message).(DiscordMessage.Embeds) = [embed]
      ∧ embed.(DiscordEmbed.Color) = 0x1D82F7
      ∧ embed.(DiscordEmbed.Title) = "Pull Request opened"
      ∧ embed = spec_pullRequestEmbed "opened" 0x1D82F7 event.
Proof.
  split; [left; reflexivity|].
  apply (pull_request_opening_notifies devURL
           (samplePullRequest "opened" false) sampleWorld).
  left; reflexivity.
Defined.

(** The "closed and merged" scenario: purple, titled "Pull Request merged". *)
Lemma pull_request_merged_notifies_witness :
  let event := samplePullRequest "closed" true in
  event.(GitHubEvent.Action) = "closed"
  ∧ event.(GitHubEvent.PullRequest).(PullRequest.Merged) = true
  ∧ ∃ (d : Delivery) (embed : DiscordEmbed.t),
      (snd (handlePullRequestEvent devURL event sampleWorld)).(outbox) = [d]
      ∧ d.(message).(DiscordMessage.Embeds) = [embed]
      ∧ embed.(DiscordEmbed.Color) = 0x6E48CD
      ∧ embed.(DiscordEmbed.Title) = "Pull Request merged"
      ∧ embed = spec_pullRequestEmbed "merged" 0x6E48CD event.
Proof.
  split; [reflexivity|]. split; [reflexivity|].
  apply (pull_request_merged_notifies devURL
           (samplePullRequest "closed" true) sampleWorld);
    reflexivity.
Defined.

(** A pull request closed without merging: nothing is sent. *)
Lemma pull_request_dropped_witness :
  let event := samplePullRequest "closed" false in
  ((event.(GitHubEvent.Action) ≠ "opened"
    ∧ event.(GitHubEvent.Action) ≠ "reopened"
    ∧ event.(GitHubEvent.Action) ≠ "ready_for_review"
    ∧ event.(GitHubEvent.Action) ≠ "closed")
   ∨ (event.(GitHubEvent.Action) = "closed"
      ∧ event.(GitHubEvent.PullRequest).(PullRequest.Merged) = false))
  ∧ (snd (handlePullRequestEvent devURL event sampleWorld)).(outbox) = []
  ∧ deliveries (handlePullRequestEvent devURL event) sampleWorld = [].
Proof.
  split; [right; split; reflexivity|].
  apply (pull_request_dropped devURL (samplePullRequest "closed" false) sampleWorld).
  right; split; reflexivity.
Defined.

(** The failed workflow run of the specification: one request, to the
    testing address, red. *)
Lemma workflow_run_completed_notifies_witness :
  let event := sampleWorkflowRun "completed" "failure" in
  event.(GitHubEvent.Action) = "completed"
  ∧ ∃ (d : Delivery) (embed : DiscordEmbed.t),
      (snd (handleWorkflowRunEvent testURL event sampleWorld)).(outbox) = [d]
      ∧ d.(url) = testURL
      ∧ d.(message).(DiscordMessage.Embeds) = [embed]
      ∧ embed.(DiscordEmbed.Color) = 0xE74C3C.
Proof.
  split; [reflexivity|].
  destruct (workflow_run_completed_notifies testURL
              (sampleWorkflowRun "completed" "failure") sampleWorld eq_refl)
    as (d & embed & Hout & Hurl & Hembeds & _ & _ & Hfailure & _).
  exists d, embed. repeat split; [exact Hout | exact Hurl | exact Hembeds |].
  apply Hfailure. reflexivity.
Defined.

(** A workflow run still in progress: nothing is sent. *)
Lemma workflow_run_dropped_witness :
  let event := sampleWorkflowRun "in_progress" "" in
  event.(GitHubEvent.Action) ≠ "completed"
  ∧ (snd (handleWorkflowRunEvent testURL event sampleWorld)).(outbox) = []
  ∧ deliveries (handleWorkflowRunEvent testURL event) sampleWorld = [].
Proof.
  split; [discriminate|].
  apply (workflow_run_dropped testURL (sampleWorkflowRun "in_progress" "") sampleWorld).
  discriminate.
Defined.

(** A body cut short is answered with 400 and nothing is sent. *)
Lemma invalid_json_rejected_witness :
  let c := sampleRequest "pull_request" "{" in
  let run := handleGitHubWebhook devURL testURL c in
  c.(Request).(Body) = inl "{"
  ∧ ¬ validJSON "{"
  ∧ fst (run sampleWorld) = JSON 400 {[ "error" := "Invalid JSON payload" ]}
  ∧ (fst (run sampleWorld)).(Code) = 400
  ∧ (snd (run sampleWorld)).(outbox) = []
  ∧ deliveries run sampleWorld = []
  ∧ logged run sampleWorld
    = [ Printf "Received GitHub webhook event: %s"
          [AString (GetHeader c "X-GitHub-Event")];
        Printf "Error parsing webhook payload: %v" [AError SyntaxError] ].
Proof.
  assert (Hn : ¬ validJSON "{").
  { unfold validJSON. intros H. apply H. reflexivity. }
  split; [reflexivity|]. split; [exact Hn|].
  apply (invalid_json_rejected devURL testURL
           (sampleRequest "pull_request" "{") "{" sampleWorld eq_refl Hn).
Defined.

(** The empty object decodes, and is acknowledged although no handler sends
    anything for it. *)
Lemma decoded_request_acknowledged_witness :
  let c := sampleRequest "pull_request" "{}" in
  decodes c
  ∧ fst (handleGitHubWebhook devURL testURL c sampleWorld) = acknowledgment
  ∧ (fst (handleGitHubWebhook devURL testURL c sampleWorld)).(Code) = 200.
Proof.
  assert (Hd : decodes (sampleRequest "pull_request" "{}")).
  { exists "{}". split; reflexivity. }
  split; [exact Hd|].
  exact (proj1 (decoded_request_acknowledged devURL testURL
                  (sampleRequest "pull_request" "{}") sampleWorld) Hd).
Defined.

(** The content of the request made in the "opened" scenario. *)
Lemma pull_request_notification_content_witness :
  let event := samplePullRequest "opened" false in
  In sampleOpenedDelivery
    (deliveries (handlePullRequestEvent devURL event) sampleWorld)
  ∧ ∃ embed : DiscordEmbed.t,
      sampleOpenedDelivery.(message) = DiscordMessage.mk "" [embed]
      ∧ embed.(DiscordEmbed.Title) = "Pull Request opened"
      ∧ embed.(DiscordEmbed.Description)
        = "**alice** opened [#42: Fix bug](http://x/42)"
      ∧ embed.(DiscordEmbed.URL) = "http://x/42"
      ∧ embed.(DiscordEmbed.Fields)
        = [ DiscordEmbedField.mk "Repository" "[org/repo](http://x)" true;
            DiscordEmbedField.mk "PR Status" "" true ].
Proof.
  assert (Hin : In sampleOpenedDelivery
                  (deliveries
                     (handlePullRequestEvent devURL (samplePullRequest "opened" false))
                     sampleWorld)).
  { left. reflexivity. }
  split; [exact Hin|].
  destruct (pull_request_notification_content devURL
              (samplePullRequest "opened" false) sampleWorld
              sampleOpenedDelivery Hin)
    as (embed & Hm & Ht & Hdesc & _ & _ & _ & Hu & Hf).
  exists embed. repeat split; [exact Hm | exact Ht | exact Hdesc | exact Hu | exact Hf].
Defined.

(** The shape of the request made in the "opened" scenario. *)
Lemma notification_shape_witness :
  let event := samplePullRequest "opened" false in
  (In sampleOpenedDelivery
     (deliveries (handlePullRequestEvent devURL event) sampleWorld)
   ∨ In sampleOpenedDelivery
       (deliveries (handleWorkflowRunEvent testURL event) sampleWorld))
  ∧ sampleOpenedDelivery.(message).(DiscordMessage.Content) = ""
  ∧ ∃ (embed : DiscordEmbed.t) (f1 f2 : DiscordEmbedField.t),
      sampleOpenedDelivery.(message).(DiscordMessage.Embeds) = [embed]
      ∧ embed.(DiscordEmbed.Fields) = [f1; f2]
      ∧ f1.(DiscordEmbedField.Inline) = true
      ∧ f2.(DiscordEmbedField.Inline) = true.
Proof.
  assert (Hin : In sampleOpenedDelivery
                  (deliveries
                     (handlePullRequestEvent devURL (samplePullRequest "opened" false))
                     sampleWorld)).
  { left. reflexivity. }
  split; [left; exact Hin|].
  apply (notification_shape devURL testURL (samplePullRequest "opened" false)
           sampleWorld sampleOpenedDelivery).
  left; exact Hin.
Defined.

(** The "opened" scenario run in two worlds, one fresh and one in which
    Discord is unreachable and a request has already been made. *)
Lemma handlers_deterministic_witness :
  let event := samplePullRequest "opened" false in
  let busy := mkWorld [] [sampleOpenedDelivery] (fun _ => PostFailed) in
  event = event
  ∧ deliveries (handlePullRequestEvent devURL event) sampleWorld
    = deliveries (handlePullRequestEvent devURL event) busy
  ∧ deliveries (handleWorkflowRunEvent testURL event) sampleWorld
    = deliveries (handleWorkflowRunEvent testURL event) busy.
Proof.
  split; [reflexivity|].
  destruct (handlers_deterministic devURL testURL
              (samplePullRequest "opened" false) (samplePullRequest "opened" false)
              sampleWorld
              (mkWorld [] [sampleOpenedDelivery] (fun _ => PostFailed)) eq_refl)
    as (Hpr & Hwf & _).
  split; [exact Hpr | exact Hwf].
Defined.

(** * Further properties of the program *)

(** ** Sending *)

(** X1.  [sendDiscordMessage] makes one attempt and writes one line,
    whatever the outcome: the outbox gains exactly the request that carries
    the encoding of the message to the address as [application/json], the
    log gains exactly one line, and that line reports success exactly when
    the remote end answered with a status from 200 to 299. *)
Theorem sendDiscordMessage_one_attempt
    (webhookURL : string) (message : DiscordMessage.t) (w : World) :
  let request :=
    mkDelivery webhookURL "application/json" (encodeDiscordMessage message)
      message in
  let w' := snd (sendDiscordMessage webhookURL message w) in
  w'.(outbox) = (w.(outbox) ++ [request])%list
  ∧ w'.(remote) = w.(remote)
  ∧ ∃ line : LogEntry,
      w'.(logs) = (w.(logs) ++ [line])%list
      ∧ (line = Printf "Discord message sent successfully" []
         ↔ ∃ code answer,
             w.(remote) (w.(outbox) ++ [request])%list = PostResponse code answer
             ∧ 200 <= code < 300).
Proof.
  intros request w'. subst w' request.
  unfold sendDiscordMessage, json_Marshal, bind, http_Post; simpl.
  destruct (remote w _) as [|code answer] eqn:Hr; simpl.
  - split; [reflexivity|]. split; [reflexivity|].
    eexists. split; [reflexivity|].
    split; [discriminate | by intros (? & ? & ? & _)].
  - destruct ((code <? 200) || (code >=? 300)) eqn:Hc; simpl;
      (split; [reflexivity|]; split; [reflexivity|];
       eexists; split; [reflexivity|]).
    + split; [discriminate|].
      intros (code' & answer' & [= <- <-] & Hlo & Hhi).
      apply orb_prop in Hc as [Hc|Hc]; lia.
    + split; [|reflexivity].
      intros _. exists code, answer. split; [reflexivity|].
      apply orb_false_elim in Hc as [H1 H2]. lia.
Qed.

(** ** The world only grows *)

Lemma grows_refl (w : World) : grows 0 w w.
Proof.
  split; [reflexivity|]. exists [], []. by rewrite !app_nil_r.
Qed.

Lemma grows_trans (n m : nat) (w1 w2 w3 : World) :
  grows n w1 w2 → grows m w2 w3 → grows (n + m) w1 w3.
Proof.
  intros (Hr1 & l1 & d1 & Hl1 & Ho1 & Hn) (Hr2 & l2 & d2 & Hl2 & Ho2 & Hm).
  split; [congruence|].
  exists (l1 ++ l2)%list, (d1 ++ d2)%list.
  rewrite Hl2, Hl1, Ho2, Ho1, !app_assoc, length_app.
  repeat split; lia.
Qed.

Lemma grows_le (n m : nat) (w w' : World) :
  (n ≤ m)%nat → grows n w w' → grows m w w'.
Proof.
  intros Hle (Hr & ls & ds & Hl & Ho & Hn).
  split; [exact Hr|]. exists ls, ds. repeat split; [done | done | lia].
Qed.

Lemma grows_log_Printf (n : nat) format args w :
  grows n w (snd (log_Printf format args w)).
Proof.
  split; [reflexivity|]. exists [Printf format args], [].
  simpl. rewrite app_nil_r. repeat split. lia.
Qed.

Lemma grows_sendDiscordMessage webhookURL message w :
  grows 1 w (snd (sendDiscordMessage webhookURL message w)).
Proof.
  destruct (sendDiscordMessage_outbox webhookURL message w).
  unfold sendDiscordMessage, json_Marshal, bind, http_Post; simpl.
  destruct (remote w _) as [|code answer]; simpl;
    [|destruct ((code <? 200) || (code >=? 300)); simpl];
    (split; [reflexivity|]; eexists [_], [_]; by repeat split).
Qed.

Lemma grows_handlePullRequestEvent developmentChannelWebhook event w :
  grows 1 w (snd (handlePullRequestEvent developmentChannelWebhook event w)).
Proof.
  set (action := event.(GitHubEvent.Action)).
  set (merged := event.(GitHubEvent.PullRequest).(PullRequest.Merged)).
  apply (grows_trans 0 1 _
           (snd (log_Printf "Processing pull request event: %s"
                   [AString action] w)));
    [apply grows_log_Printf|].
  destruct (String.eqb_spec action "closed") as [Hc|Hc].
  - destruct merged eqn:Hm.
    + rewrite (handlePullRequestEvent_notifies _ _ _ "merged" 0x6E48CD)
        by (left; auto).
      apply grows_sendDiscordMessage.
    + rewrite handlePullRequestEvent_unmerged by done.
      apply grows_log_Printf.
  - destruct ((action =? "opened") || (action =? "reopened")
              || (action =? "ready_for_review"))%string eqn:Hp.
    + rewrite (handlePullRequestEvent_notifies _ _ _ action 0x1D82F7).
      * apply grows_sendDiscordMessage.
      * right. repeat split.
        apply orb_prop in Hp as [Hp|Hp]; [apply orb_prop in Hp as [Hp|Hp]|];
          apply String.eqb_eq in Hp; auto.
    + rewrite handlePullRequestEvent_ignored.
      * apply grows_log_Printf.
      * fold action. rewrite Hp. by apply eqb_false_of_ne.
Qed.

Lemma grows_handleWorkflowRunEvent testingChannelWebhook event w :
  grows 1 w (snd (handleWorkflowRunEvent testingChannelWebhook event w)).
Proof.
  apply (grows_trans 0 1 _
           (snd (log_Printf "Processing workflow run event: %s"
                   [AString event.(GitHubEvent.Action)] w)));
    [apply grows_log_Printf|].
  destruct (String.eqb_spec event.(GitHubEvent.Action) "completed") as [Hc|Hc].
  - rewrite handleWorkflowRunEvent_notifies by done.
    apply grows_sendDiscordMessage.
  - rewrite handleWorkflowRunEvent_ignored by done.
    apply grows_log_Printf.
Qed.

(** X2.  One inbound request causes at most one outbound request, and the
    endpoint only ever adds to the world: for every request and every world,
    the log after the call is the log before it with lines added, the
    outbox after the call is the outbox before it with at most one request
    added, and the remote end is untouched. *)
Theorem endpoint_sends_at_most_once
    (developmentChannelWebhook testingChannelWebhook : string)
    (c : gin_Context) (w : World) :
  grows 1 w
    (snd (handleGitHubWebhook developmentChannelWebhook testingChannelWebhook
            c w)).
Proof.
  destruct (c.(Request).(Body)) as [data|err] eqn:Hb.
  - destruct (json_Unmarshal data GitHubEvent.zero) as [event [err|]] eqn:He.
    + rewrite (handleGitHubWebhook_undecodable _ _ _ _ data err Hb)
        by by rewrite He.
      split; [reflexivity|]. eexists [_; _], []. simpl.
      rewrite <- app_assoc, app_nil_r. repeat split; simpl; lia.
    + unfold handleGitHubWebhook, bind, io_ReadAll. rewrite Hb, He.
      set (w1 := snd (log_Printf "Received GitHub webhook event: %s"
                        [AString (GetHeader c "X-GitHub-Event")] w)).
      change (log_Printf "Received GitHub webhook event: %s"
                [AString (GetHeader c "X-GitHub-Event")] w) with (tt, w1).
      cbv beta iota.
      apply (grows_trans 0 1 _ w1); [apply grows_log_Printf|].
      destruct (GetHeader c "X-GitHub-Event" =? "pull_request")%string.
      * pose proof (grows_handlePullRequestEvent
                      developmentChannelWebhook event w1) as Hg.
        by destruct (handlePullRequestEvent _ event w1) as [[] w'].
      * destruct (GetHeader c "X-GitHub-Event" =? "workflow_run")%string.
        -- pose proof (grows_handleWorkflowRunEvent
                         testingChannelWebhook event w1) as Hg.
           by destruct (handleWorkflowRunEvent _ event w1) as [[] w'].
        -- apply grows_log_Printf.
  - rewrite (handleGitHubWebhook_unreadable _ _ _ _ err Hb).
    split; [reflexivity|]. eexists [_; _], []. simpl.
    rewrite <- app_assoc, app_nil_r. repeat split; simpl; lia.
Qed.

(** ** The endpoint *)

Lemma logged_of_logs {A : Type} (m : M A) w lines :
  (snd (m w)).(logs) = (w.(logs) ++ lines)%list → logged m w = lines.
Proof. intros E. unfold logged. rewrite E. apply drop_app_length. Qed.

(** X3.  When the body of the request cannot be read, the answer is 400
    with [{"error": "Unable to read request body"}]; nothing is decoded,
    routed or sent, and the log holds the line for the event received and
    the line with the error. *)
Theorem unreadable_body_rejected
    (developmentChannelWebhook testingChannelWebhook : string)
    (c : gin_Context) (err : error) (w : World) :
  c.(Request).(Body) = inr err →
  let run := handleGitHubWebhook developmentChannelWebhook testingChannelWebhook c in
  fst (run w) = JSON 400 {[ "error" := "Unable to read request body" ]}
  ∧ deliveries run w = []
  ∧ logged run w
    = [ Printf "Received GitHub webhook event: %s"
          [AString (GetHeader c "X-GitHub-Event")];
        Printf "Error reading request body: %v" [AError err] ].
Proof.
  intros Hb run. subst run.
  pose proof (handleGitHubWebhook_unreadable
                developmentChannelWebhook testingChannelWebhook c w err Hb) as E.
  split; [by rewrite E|]. split.
  - apply deliveries_of_outbox. rewrite E. simpl. by rewrite app_nil_r.
  - apply logged_of_logs. rewrite E. simpl. by rewrite <- app_assoc.
Qed.

(** What the endpoint sends, in every case: what the handler named by the
    header sends for the decoded event, and nothing when the body is not
    read, is not decoded, or the header names no handler. *)
Lemma endpoint_deliveries
    (developmentChannelWebhook testingChannelWebhook : string)
    (c : gin_Context) (w : World) :
  deliveries
    (handleGitHubWebhook developmentChannelWebhook testingChannelWebhook c) w
  = match c.(Request).(Body) with
    | inr _ => []
    | inl data =>
      match json_Unmarshal data GitHubEvent.zero with
      | (_, Some _) => []
      | (event, None) =>
        if (GetHeader c "X-GitHub-Event" =? "pull_request")%string then
          deliveries (handlePullRequestEvent developmentChannelWebhook event) w
        else if (GetHeader c "X-GitHub-Event" =? "workflow_run")%string then
          deliveries (handleWorkflowRunEvent testingChannelWebhook event) w
        else []
      end
    end.
Proof.
  destruct (c.(Request).(Body)) as [data|err] eqn:Hb.
  - destruct (json_Unmarshal data GitHubEvent.zero) as [event [err|]] eqn:He.
    + apply deliveries_of_outbox.
      rewrite (handleGitHubWebhook_undecodable _ _ _ _ data err Hb)
        by by rewrite He.
      simpl. by rewrite app_nil_r.
    + exact (handleGitHubWebhook_deliveries _ _ _ _ data event Hb He).
  - apply deliveries_of_outbox.
    rewrite (handleGitHubWebhook_unreadable _ _ _ _ err Hb).
    simpl. by rewrite app_nil_r.
Qed.

(** X4.  The header alone selects the destination: a request reaches the
    development address only when the header is "pull_request", the
    testing address only when it is "workflow_run", and with any other
    header, or none, nothing is sent at all. *)
Theorem destination_follows_header
    (developmentChannelWebhook testingChannelWebhook : string)
    (c : gin_Context) (w : World) (d : Delivery) :
  In d (deliveries
          (handleGitHubWebhook developmentChannelWebhook testingChannelWebhook c)
          w) →
  (GetHeader c "X-GitHub-Event" = "pull_request"
   ∧ d.(url) = developmentChannelWebhook)
  ∨ (GetHeader c "X-GitHub-Event" = "workflow_run"
     ∧ d.(url) = testingChannelWebhook).
Proof.
  rewrite endpoint_deliveries.
  destruct (c.(Request).(Body)) as [data|err]; [|contradiction].
  destruct (json_Unmarshal data GitHubEvent.zero) as [event [err|]];
    [contradiction|].
  destruct (String.eqb_spec (GetHeader c "X-GitHub-Event") "pull_request")
    as [Hpr|_].
  - intros Hd. left. split; [exact Hpr|]. by sent_request Hd.
  - destruct (String.eqb_spec (GetHeader c "X-GitHub-Event") "workflow_run")
      as [Hwf|_]; [|contradiction].
    intros Hd. right. split; [exact Hwf|]. by sent_request Hd.
Qed.

(** X5.  Neither the answer to the caller nor what is sent depends on the
    world: earlier log lines, earlier requests and the answers or failures
    of the remote end change neither of them. *)
Theorem endpoint_ignores_the_world
    (developmentChannelWebhook testingChannelWebhook : string)
    (c : gin_Context) (w1 w2 : World) :
  let run := handleGitHubWebhook developmentChannelWebhook testingChannelWebhook c in
  fst (run w1) = fst (run w2) ∧ deliveries run w1 = deliveries run w2.
Proof.
  intros run. subst run. split.
  - destruct (c.(Request).(Body)) as [data|err] eqn:Hb.
    + destruct (snd (json_Unmarshal data GitHubEvent.zero)) as [err|] eqn:He.
      * by rewrite !(handleGitHubWebhook_undecodable _ _ _ _ data err Hb He).
      * by rewrite !(handleGitHubWebhook_decoded _ _ _ _ data Hb He).
    + by rewrite !(handleGitHubWebhook_unreadable _ _ _ _ err Hb).
  - rewrite !endpoint_deliveries.
    destruct (c.(Request).(Body)) as [data|err]; [|reflexivity].
    destruct (json_Unmarshal data GitHubEvent.zero) as [event [err|]];
      [reflexivity|].
    by rewrite !pull_request_deliveries, !workflow_run_deliveries.
Qed.

(** ** The handlers *)

(** X6.  An event that is dropped is never dropped silently: when the
    pull-request handler sends nothing, it has logged the event and then
    either that the action is ignored or that the pull request was closed
    without merging; when the workflow-run handler sends nothing, it has
    logged the event and then that the action is ignored. *)
Theorem dropped_events_are_logged
    (developmentChannelWebhook testingChannelWebhook : string)
    (event : GitHubEvent.t) (w : World) :
  let action := event.(GitHubEvent.Action) in
  let pr := handlePullRequestEvent developmentChannelWebhook event in
  let wf := handleWorkflowRunEvent testingChannelWebhook event in
  (deliveries pr w = [] →
   logged pr w
   = [ Printf "Processing pull request event: %s" [AString action];
       Printf "Ignoring PR action: %s" [AString action] ]
   ∨ logged pr w
     = [ Printf "Processing pull request event: %s" [AString action];
         Printf "PR was closed without merging, not sending notification" [] ])
  ∧ (deliveries wf w = [] →
     logged wf w
     = [ Printf "Processing workflow run event: %s" [AString action];
         Printf "Ignoring workflow run action: %s" [AString action] ]).
Proof.
  intros action pr wf. subst pr wf. split.
  - rewrite pull_request_deliveries. fold action.
    destruct (String.eqb_spec action "closed") as [Hc|Hc].
    + destruct (PullRequest.Merged _) eqn:Hm; [discriminate|].
      intros _. right. apply logged_of_logs.
      rewrite handlePullRequestEvent_unmerged by done.
      simpl. by rewrite <- app_assoc.
    + destruct ((action =? "opened") || (action =? "reopened")
                || (action =? "ready_for_review"))%string eqn:Hp;
        [discriminate|].
      intros _. left. apply logged_of_logs.
      rewrite handlePullRequestEvent_ignored.
      * simpl. by rewrite <- app_assoc.
      * fold action. rewrite Hp. by apply eqb_false_of_ne.
  - rewrite workflow_run_deliveries. fold action.
    destruct (String.eqb_spec action "completed") as [Hc|Hc]; [discriminate|].
    intros _. apply logged_of_logs.
    rewrite handleWorkflowRunEvent_ignored by done.
    simpl. by rewrite <- app_assoc.
Qed.

(** X7.  Among the notifications of the pull-request handler, the title
    "Pull Request merged" and the color 0x6E48CD appear exactly when the
    action is "closed" and the pull request is merged; in particular an
    event whose action is the word "merged" never produces them. *)
Theorem merged_only_when_closed_and_merged
    (developmentChannelWebhook : string) (event : GitHubEvent.t) (w : World)
    (d : Delivery) :
  In d (deliveries (handlePullRequestEvent developmentChannelWebhook event) w) →
  let merged :=
    event.(GitHubEvent.Action) = "closed"
    ∧ event.(GitHubEvent.PullRequest).(PullRequest.Merged) = true in
  ∃ embed : DiscordEmbed.t,
    d.(message).(DiscordMessage.Embeds) = [embed]
    ∧ (embed.(DiscordEmbed.Title) = "Pull Request merged" ↔ merged)
    ∧ (embed.(DiscordEmbed.Color) = 0x6E48CD ↔ merged).
Proof.
  intros Hd merged. subst merged.
  rewrite pull_request_deliveries in Hd. unfold spec_label in Hd.
  destruct (String.eqb_spec event.(GitHubEvent.Action) "closed") as [Hc|Hc].
  - destruct (PullRequest.Merged _) eqn:Hm; [|contradiction].
    destruct Hd as [<-|[]]. eexists. split; [reflexivity|]. simpl.
    split; (split; [by intros _ | reflexivity]).
  - destruct ((_ =? "opened") || (_ =? "reopened")
              || (_ =? "ready_for_review"))%string eqn:Hp; [|contradiction].
    destruct Hd as [<-|[]]. eexists. split; [reflexivity|]. simpl.
    split; (split; [|by intros [? _]]).
    + intros [= Ha]. change (event.(GitHubEvent.Action) = "merged") in Ha.
      rewrite Ha in Hp. discriminate.
    + discriminate.
Qed.

(** X8.  Every color the handlers send is one of the seven constants of the
    program, and so a 24-bit RGB value. *)
Theorem colors_are_rgb
    (developmentChannelWebhook testingChannelWebhook : string)
    (event : GitHubEvent.t) (w : World) (d : Delivery) :
  In d (deliveries (handlePullRequestEvent developmentChannelWebhook event) w)
  ∨ In d (deliveries (handleWorkflowRunEvent testingChannelWebhook event) w) →
  ∃ embed : DiscordEmbed.t,
    d.(message).(DiscordMessage.Embeds) = [embed]
    ∧ In embed.(DiscordEmbed.Color)
        [0x1D82F7; 0x6E48CD; 0x2ECC71; 0xE74C3C; 0xF39C12; 0x95A5A6; 0xE6E6E6]
    ∧ 0 <= embed.(DiscordEmbed.Color) <= 0xFFFFFF.
Proof.
  intros [Hd|Hd]; sent_request Hd; eexists; (split; [reflexivity|]); simpl;
    unfold spec_conclusionColor;
    repeat match goal with
           | |- context [if ?b then _ else _] => destruct b
           end;
    (split; [tauto | lia]).
Qed.

(** ** Decoding *)

(** X9.  A member of the payload whose key names no field of the event is
    ignored, wherever it stands among the members: the event stored and the
    error returned are those of the payload without it. *)
Theorem unknown_keys_are_ignored
    (before after : list (string * json)) (key : string) (v : json)
    (event : GitHubEvent.t) :
  existsb (selects key)
    ["action"; "repository"; "sender"; "pull_request"; "workflow_run"] = false →
  storeGitHubEvent (JObject (before ++ (key, v) :: after)) event
  = storeGitHubEvent (JObject (before ++ after)) event.
Proof.
  intros Hno. cbn [existsb] in Hno.
  apply orb_false_elim in Hno as [H1 Hno].
  apply orb_false_elim in Hno as [H2 Hno].
  apply orb_false_elim in Hno as [H3 Hno].
  apply orb_false_elim in Hno as [H4 Hno].
  apply orb_false_elim in Hno as [H5 _].
  unfold storeGitHubEvent, storeStruct.
  rewrite !fold_left_app. cbn [fold_left fst snd]. f_equal.
  destruct (fold_left _ before (event, None)) as [[a r s p wr] saved].
  rewrite H1, H2, H3, H4, H5. by destruct saved.
Qed.

(** X10.  The number of a pull request survives decoding and printing: the
    decimal text of any 64-bit integer, as the member "number" of a pull
    request, is stored without error as that integer, which [%d] prints
    back as the same text. *)
Theorem number_round_trip (n : Z) (pr : PullRequest.t) :
  - 2 ^ 63 <= n < 2 ^ 63 →
  let '(pr', err) :=
    storePullRequest (JObject [("number", JNumber (Itoa n))]) pr in
  err = None
  ∧ pr'.(PullRequest.Number) = n
  ∧ Sprintf "%d" [AInt pr'.(PullRequest.Number)] = Itoa n.
Proof.
  intros Hn.
  assert (Hp : parseInt64 (Itoa n) = Some n).
  { unfold parseInt64, Itoa. rewrite NilZero.isi.
    - rewrite DecimalZ.of_to.
      destruct (- 2 ^ 63 <=? n) eqn:H1; [|lia].
      destruct (n <? 2 ^ 63) eqn:H2; [reflexivity|lia].
    - destruct n; simpl; [discriminate| |discriminate].
      intros [= H]. by apply DecimalPos.Unsigned.to_uint_nonnil in H.
    - destruct n; simpl; [discriminate|discriminate|].
      intros [= H]. by apply DecimalPos.Unsigned.to_uint_nonnil in H. }
  destruct pr as [number title htmlurl merged state].
  unfold storePullRequest, storeStruct. simpl fold_left.
  change (selects "number" "number") with true. cbv iota.
  unfold storeInt. rewrite Hp. simpl.
  by rewrite append_empty_r.
Qed.

(** ** Startup *)

(** X11.  [main] never serves with an address missing: it calls
    [router.Run] only with both webhook addresses set and not empty, and
    otherwise exits with status 1; so no request the endpoint makes once
    the server runs goes to an empty address. *)
Theorem main_requires_both_addresses
    (environ : gmap string string) (dotenv : option (gmap string string)) :
  match snd (main environ dotenv) with
  | Exit status =>
    status = 1
    ∧ (os_Getenv (fst (godotenv_Load dotenv environ)) "DISCORD_DEV_WEBHOOK_URL"
       = ""
       ∨ os_Getenv (fst (godotenv_Load dotenv environ)) "DISCORD_TEST_WEBHOOK_URL"
         = "")
  | Run developmentChannelWebhook testingChannelWebhook _ =>
    developmentChannelWebhook ≠ ""
    ∧ testingChannelWebhook ≠ ""
    ∧ ∀ (c : gin_Context) (w : World) (d : Delivery),
        In d (deliveries
                (handleGitHubWebhook developmentChannelWebhook
                   testingChannelWebhook c) w) →
        d.(url) ≠ ""
  end.
Proof.
  unfold main.
  destruct (godotenv_Load dotenv environ) as [environ' failed]. simpl fst.
  destruct (String.eqb_spec
              (os_Getenv environ' "DISCORD_DEV_WEBHOOK_URL") "") as [Hd|Hd];
    simpl; [by auto|].
  destruct (String.eqb_spec
              (os_Getenv environ' "DISCORD_TEST_WEBHOOK_URL") "") as [Ht|Ht];
    simpl; [by auto|].
  split; [exact Hd|]. split; [exact Ht|].
  intros c w d. rewrite endpoint_deliveries.
  destruct (c.(Request).(Body)) as [data|err]; [|contradiction].
  destruct (json_Unmarshal data GitHubEvent.zero) as [event [err|]];
    [contradiction|].
  destruct (_ =? "pull_request")%string.
  - intros Hin. by sent_request Hin.
  - destruct (_ =? "workflow_run")%string; [|contradiction].
    intros Hin. by sent_request Hin.
Qed.

(** X12.  The environment of the process wins over [.env], and a [.env]
    that is missing or broken does not keep the server from starting: when
    both addresses are set and not empty in the environment, [main] calls
    [router.Run] with exactly those two, whatever [.env] holds; the address
    it listens on is the port of the environment after the colon, and
    ":8088" when no port is set. *)
Theorem environment_wins
    (environ : gmap string string) (dotenv : option (gmap string string))
    (dev test : string) :
  environ !! "DISCORD_DEV_WEBHOOK_URL" = Some dev → dev ≠ "" →
  environ !! "DISCORD_TEST_WEBHOOK_URL" = Some test → test ≠ "" →
  ∃ addr : string,
    snd (main environ dotenv) = Run dev test addr
    ∧ (∀ port, environ !! "PORT" = Some port → port ≠ "" → addr = ":" ++ port)
    ∧ (os_Getenv (fst (godotenv_Load dotenv environ)) "PORT" = "" →
       addr = ":8088").
Proof.
  intros Hdev Hd Htest Ht. unfold main.
  assert (Hkeep : ∀ key value, environ !! key = Some value →
            os_Getenv (fst (godotenv_Load dotenv environ)) key = value).
  { intros key value Hk. unfold os_Getenv, godotenv_Load.
    destruct dotenv as [vars|]; simpl.
    - by rewrite (lookup_union_Some_l _ _ _ _ Hk).
    - by rewrite Hk. }
  destruct (godotenv_Load dotenv environ) as [environ' failed]. simpl fst in *.
  rewrite (Hkeep _ _ Hdev), (Hkeep _ _ Htest).
  rewrite (eqb_false_of_ne _ _ Hd), (eqb_false_of_ne _ _ Ht). simpl.
  eexists. split; [reflexivity|]. split.
  - intros port Hp Hne. by rewrite (Hkeep _ _ Hp), (eqb_false_of_ne _ _ Hne).
  - by intros ->.
Qed.

(** ** The router *)

Lemma carriesCors_intro (wr : ResponseWriter) :
  sentStatus wr ≠ None →
  sentHeader wr !! "Access-Control-Allow-Origin" = Some ["*"] →
  sentHeader wr !! "Access-Control-Allow-Methods" = Some ["POST, GET, OPTIONS"] →
  sentHeader wr !! "Access-Control-Allow-Headers"
    = Some ["Content-Type, X-GitHub-Event, X-Hub-Signature-256"] →
  carriesCors wr.
Proof.
  intros Hs H1 H2 H3. split; [exact Hs|].
  intros key value [[= <- <-]|[[= <- <-]|[[= <- <-]|[]]]]; assumption.
Qed.

(** One step of a chain whose handlers and indices are known. *)
Ltac chain_step :=
  cbv beta iota zeta delta
    [serveNoRoute serveRoute middleware app chainLoop bind ret
     gin_Logger gin_Recovery corsMiddleware webhookHandler healthHandler
     c_JSON AbortWithStatus abortIndex Header_Set
     cindex Writer Method Path Context fst snd
     Z.add Z.eqb Pos.add Pos.eqb Pos.succ Pos.add_carry].

(** The endpoint answers with 200 or 400 and nothing else. *)
Lemma endpoint_codes
    (developmentChannelWebhook testingChannelWebhook : string)
    (c : gin_Context) (w : World) :
  let r :=
    fst (handleGitHubWebhook developmentChannelWebhook testingChannelWebhook c w) in
  r.(Code) = 200 ∨ r.(Code) = 400.
Proof.
  destruct (c.(Request).(Body)) as [data|err] eqn:Hb.
  - destruct (snd (json_Unmarshal data GitHubEvent.zero)) as [err|] eqn:He.
    + rewrite (handleGitHubWebhook_undecodable _ _ _ _ data err Hb He). by right.
    + rewrite (handleGitHubWebhook_decoded _ _ _ _ data Hb He). by left.
  - rewrite (handleGitHubWebhook_unreadable _ _ _ _ err Hb). by right.
Qed.

(** X13.  [GET /health] always succeeds and has no effect: whatever the
    request carries and whatever the state of the world, the answer is 200
    with the JSON object [{"status": "ok"}], and the log and the outbox are
    left as they were. *)
Theorem health_always_ok
    (developmentChannelWebhook testingChannelWebhook : string)
    (call : Call) (w : World) :
  call.(Method) = "GET" → call.(Path) = "/health" →
  ∃ run : M ResponseWriter,
    ServeHTTP developmentChannelWebhook testingChannelWebhook call = Some run
    ∧ snd (run w) = w
    ∧ sentStatus (fst (run w)) = Some 200
    ∧ (fst (run w)).(wBody) = [JSONBody {[ "status" := "ok" ]}].
Proof.
  destruct call as [method path c]. simpl. intros -> ->.
  exists (serveRoute healthHandler (mkCall "GET" "/health" c)).
  split; [reflexivity|]. by vm_compute.
Qed.

(** X14.  A preflight request is answered by the middleware alone: for the
    method OPTIONS, on any path and with any header and body, the answer
    is 204 without a body, and no handler runs: nothing is read, decoded,
    logged or sent. *)
Theorem preflight_stops_at_middleware
    (developmentChannelWebhook testingChannelWebhook : string)
    (call : Call) (w : World) :
  call.(Method) = "OPTIONS" →
  ∃ run : M ResponseWriter,
    ServeHTTP developmentChannelWebhook testingChannelWebhook call = Some run
    ∧ snd (run w) = w
    ∧ sentStatus (fst (run w)) = Some 204
    ∧ (fst (run w)).(wBody) = [].
Proof.
  destruct call as [method path c]. simpl. intros ->.
  exists (serveNoRoute (mkCall "OPTIONS" path c)).
  split; [reflexivity|]. by vm_compute.
Qed.

(** The chain of the webhook route, for each of the two codes the endpoint
    answers with. *)
Lemma serveRoute_webhook
    (developmentChannelWebhook testingChannelWebhook : string)
    (path : string) (c : gin_Context) (w w' : World)
    (code : Z) (obj : gmap string string) :
  handleGitHubWebhook developmentChannelWebhook testingChannelWebhook c w
  = (JSON code obj, w') →
  code = 200 ∨ code = 400 →
  let run :=
    serveRoute
      (webhookHandler developmentChannelWebhook testingChannelWebhook)
      (mkCall "POST" path c) in
  snd (run w) = w'
  ∧ sentStatus (fst (run w)) = Some code
  ∧ (fst (run w)).(wBody) = [JSONBody obj]
  ∧ carriesCors (fst (run w)).
Proof.
  intros E Hcode run. subst run. chain_step.
  change ("POST" =? "OPTIONS")%string with false. cbv beta iota. rewrite E.
  destruct Hcode as [-> | ->];
    (split; [reflexivity|]; split; [by vm_compute|];
     split; [by vm_compute|]; apply carriesCors_intro; by vm_compute).
Qed.

(** X15.  The webhook route adds nothing to the endpoint and takes nothing
    from it: for [POST /webhook/github] the world after the request is the
    world [handleGitHubWebhook] leaves, the status sent is its code and the
    body sent is its JSON object. *)
Theorem webhook_route_is_the_endpoint
    (developmentChannelWebhook testingChannelWebhook : string)
    (call : Call) (w : World) :
  call.(Method) = "POST" → call.(Path) = "/webhook/github" →
  let endpoint :=
    handleGitHubWebhook developmentChannelWebhook testingChannelWebhook
      call.(Context) w in
  ∃ run : M ResponseWriter,
    ServeHTTP developmentChannelWebhook testingChannelWebhook call = Some run
    ∧ snd (run w) = snd endpoint
    ∧ sentStatus (fst (run w)) = Some (fst endpoint).(Code)
    ∧ (fst (run w)).(wBody) = [JSONBody (fst endpoint).(H)].
Proof.
  destruct call as [method path c]. simpl. intros -> ->.
  pose proof (endpoint_codes developmentChannelWebhook testingChannelWebhook c w)
    as Hcode.
  destruct (handleGitHubWebhook _ _ c w) as [[code obj] w'] eqn:E.
  eexists. split; [reflexivity|].
  destruct (serveRoute_webhook _ _ "/webhook/github" _ _ _ _ _ E Hcode)
    as (H1 & H2 & H3 & _).
  by repeat split.
Qed.

(** X16.  Every answer of the router carries the three CORS headers, with
    the values the middleware gives them: the answers of the two routes,
    the 204 to a preflight request, and the 404 to a method that has no
    route. *)
Theorem cors_on_every_response
    (developmentChannelWebhook testingChannelWebhook : string)
    (call : Call) (run : M ResponseWriter) (w : World) :
  ServeHTTP developmentChannelWebhook testingChannelWebhook call = Some run →
  carriesCors (fst (run w)).
Proof.
  destruct call as [method path c]. unfold ServeHTTP, routes.
  cbn [find existsb fst snd Method Path].
  destruct (String.eqb_spec "POST" method) as [<-|Hpost].
  - destruct (String.eqb_spec "/webhook/github" path) as [<-|Hpath].
    + intros [= <-].
      pose proof (endpoint_codes developmentChannelWebhook
                    testingChannelWebhook c w) as Hcode.
      destruct (handleGitHubWebhook _ _ c w) as [[code obj] w'] eqn:E.
      by destruct (serveRoute_webhook _ _ "/webhook/github" _ _ _ _ _ E Hcode)
        as (_ & _ & _ & H).
    + discriminate.
  - destruct (String.eqb_spec "GET" method) as [<-|Hget].
    + destruct (String.eqb_spec "/health" path) as [<-|Hpath]; [|discriminate].
      intros [= <-]. apply carriesCors_intro; by vm_compute.
    + cbn [andb orb]. intros [= <-].
      destruct (method =? "OPTIONS")%string eqn:Hm;
        chain_step; rewrite Hm; apply carriesCors_intro; by vm_compute.
Qed.

(** ** The bodies sent are JSON *)

(** *** String content *)

Lemma lexStep_plain (c : ascii) (acc : string) :
  (byte_val c <? 0x80) = false ∨ htmlSafe (byte_val c) = true →
  lexStep (LString acc) c = Some (LString (snoc acc c), []).
Proof.
  destruct c as [[] [] [] [] [] [] [] []]; intros [H|H];
    try (vm_compute in H; discriminate H); reflexivity.
Qed.

Lemma lexFrom_step (st st' : lexState) (c : ascii) (rest : string) :
  lexStep st c = Some (st', []) → lexFrom st (String c rest) = lexFrom st' rest.
Proof. intros E. simpl. rewrite E. by destruct (lexFrom st' rest). Qed.

Lemma append_cons (c : ascii) (s r : string) : String c s ++ r = String c (s ++ r).
Proof. reflexivity. Qed.

Lemma append_empty_l (r : string) : "" ++ r = r.
Proof. reflexivity. Qed.

Ltac push_append :=
  repeat (rewrite append_cons || rewrite append_empty_l || rewrite append_assoc).

Lemma stringRun_nil : stringRun "".
Proof. intros acc rest. simpl. by rewrite append_empty_r. Qed.

Lemma stringRun_app p1 p2 : stringRun p1 → stringRun p2 → stringRun (p1 ++ p2).
Proof.
  intros H1 H2 acc rest. by rewrite append_assoc, H1, H2, append_assoc.
Qed.

Lemma stringRun_plain c :
  (byte_val c <? 0x80) = false ∨ htmlSafe (byte_val c) = true →
  stringRun (String c "").
Proof.
  intros H acc rest. change (String c "" ++ rest) with (String c rest).
  by rewrite (lexFrom_step _ _ _ _ (lexStep_plain c acc H)).
Qed.

Lemma stringRun_escapeByte c :
  (byte_val c <? 0x80) = true → htmlSafe (byte_val c) = false →
  stringRun (escapeByte (byte_val c)).
Proof.
  destruct c as [[] [] [] [] [] [] [] []]; intros H1 H2;
    try (vm_compute in H1; discriminate H1);
    try (vm_compute in H2; discriminate H2);
    intros acc rest;
    match goal with
    | |- context [escapeByte ?b] =>
      let e := eval vm_compute in (escapeByte b) in
      change (escapeByte b) with e
    end;
    push_append;
    repeat (erewrite lexFrom_step; [|reflexivity]);
    unfold snoc; by rewrite !append_assoc.
Qed.

Lemma between_low lo hi b : between lo hi b = true → 0x80 <= lo → (0x80 <=? b) = true.
Proof. unfold between. intros H Hlo. apply andb_prop in H as [H _]. lia. Qed.

(** A rune that is decoded with a width above one is followed by that many
    continuation bytes less one. *)
Lemma decode_cont (c : ascii) (s : string) (r : Z) (size : nat) :
  DecodeRuneInString (String c s) = (r, size) →
  (r =? RuneError) && (size =? 1)%nat = false →
  contBytes (size - 1) s = true.
Proof.
  intros E Hok. unfold DecodeRuneInString in E.
  destruct s as [|c1 [|c2 [|c3 r3]]]; cbv zeta in E;
    repeat match type of E with
           | context [if ?b then _ else _] => destruct b eqn:?
           end;
    injection E as <- <-; try discriminate Hok; try reflexivity;
    cbn [contBytes Nat.sub];
    repeat match goal with
           | H : negb (between ?lo ?hi ?b) = false |- _ =>
             apply negb_false_iff in H;
             apply between_low in H; [rewrite H|]
           end;
    try reflexivity;
    repeat match goal with |- context [if ?b then _ else _] => destruct b end; lia.
Qed.

(** Decoding looks at the bytes of the rune only: the text after them may
    change. *)
Lemma decode_stable (c : ascii) (s : string) (r : Z) (size : nat) :
  DecodeRuneInString (String c s) = (r, size) →
  (r =? RuneError) && (size =? 1)%nat = false →
  DecodeRuneInString (String c (appendStringLoop (size - 1) true s)) = (r, size).
Proof.
  intros E Hok. unfold DecodeRuneInString in E |- *.
  destruct s as [|c1 [|c2 [|c3 r3]]]; cbv zeta in E |- *;
    repeat match type of E with
           | context [if ?b then _ else _] => destruct b eqn:?
           end;
    injection E as <- <-; try discriminate Hok;
    cbn [appendStringLoop Nat.sub];
    repeat match goal with
           | H : ?b = _ |- context [if ?b then _ else _] => rewrite H
           end;
    reflexivity.
Qed.

Lemma contBytes_head (k : nat) (c : ascii) (s : string) :
  contBytes (S k) (String c s) = true →
  (byte_val c <? 0x80) = false ∧ contBytes k s = true.
Proof. cbn [contBytes]. intros H. apply andb_prop in H as [H1 H2]. split; [lia|done]. Qed.

(** The content [appendString] writes for a string is read by the lexer as
    the content of one string. *)
Lemma stringRun_appendStringLoop (s : string) :
  ∀ pending keep,
    (keep = true → contBytes pending s = true) →
    stringRun (appendStringLoop pending keep s).
Proof.
  induction s as [|c s IH]; intros pending keep Hc; [apply stringRun_nil|].
  destruct pending as [|k]; cbn [appendStringLoop].
  - destruct (byte_val c <? 0x80) eqn:Hlow.
    + apply stringRun_app; [|apply IH; first [discriminate | intros _; reflexivity]].
      destruct (htmlSafe (byte_val c)) eqn:Hsafe.
      * apply stringRun_plain. by right.
      * by apply stringRun_escapeByte.
    + destruct (DecodeRuneInString (String c s)) as [r size] eqn:E.
      destruct ((r =? RuneError) && (size =? 1)%nat) eqn:Hbad.
      * apply stringRun_app; [|apply IH; first [discriminate | intros _; reflexivity]].
        intros acc rest. push_append.
        repeat (erewrite lexFrom_step; [|reflexivity]).
        unfold snoc. by rewrite !append_assoc.
      * destruct ((r =? 0x2028) || (r =? 0x2029)) eqn:Hsep.
        -- rewrite <- append_assoc. apply stringRun_app; [|apply IH; first [discriminate | intros _; reflexivity]].
           assert (Hr : r = 0x2028 ∨ r = 0x2029).
           { apply orb_prop in Hsep as [H|H]; [left|right]; lia. }
           intros acc rest. destruct Hr as [-> | ->]; push_append;
             repeat (erewrite lexFrom_step; [|reflexivity]);
             unfold snoc; by rewrite !append_assoc.
        -- apply (stringRun_app (String c "")).
           ++ apply stringRun_plain. by left.
           ++ apply IH. intros _. by apply (decode_cont c s r size).
  - destruct keep.
    + destruct (contBytes_head k c s (Hc eq_refl)) as [Hhigh Hrest].
      apply (stringRun_app (String c "")).
      * apply stringRun_plain. by left.
      * by apply IH.
    + apply IH. discriminate.
Qed.

(** *** Unquoting what [appendString] wrote *)

Lemma prefix_some (pre : string) (tail : option string) :
  tail ≠ None → prefix pre tail ≠ None.
Proof. by destruct tail. Qed.

Lemma unquotePiece_safe (c : ascii) :
  (byte_val c <? 0x80) = true → htmlSafe (byte_val c) = true →
  unquotePiece (String c "").
Proof.
  destruct c as [[] [] [] [] [] [] [] []]; intros H1 H2;
    try (vm_compute in H1; discriminate H1);
    try (vm_compute in H2; discriminate H2);
    intros rest Hrest; push_append;
    exact (prefix_some _ _ Hrest).
Qed.

Lemma unquotePiece_escapeByte (c : ascii) :
  (byte_val c <? 0x80) = true → htmlSafe (byte_val c) = false →
  unquotePiece (escapeByte (byte_val c)).
Proof.
  destruct c as [[] [] [] [] [] [] [] []]; intros H1 H2;
    try (vm_compute in H1; discriminate H1);
    try (vm_compute in H2; discriminate H2);
    intros rest Hrest;
    match goal with
    | |- context [escapeByte ?b] =>
      let e := eval vm_compute in (escapeByte b) in
      change (escapeByte b) with e
    end;
    push_append; exact (prefix_some _ _ Hrest).
Qed.

Lemma unquoteLoop_high (c : ascii) (rest : string) :
  (byte_val c <? 0x80) = false →
  unquoteLoop 0 (String c rest)
  = let '(rr, size) := DecodeRuneInString (String c rest) in
    prefix (EncodeRune rr) (unquoteLoop (size - 1) rest).
Proof.
  destruct c as [[] [] [] [] [] [] [] []]; intros H;
    try (vm_compute in H; discriminate H); reflexivity.
Qed.

Lemma unquoteLoop_appendStringLoop (s : string) :
  ∀ (pending : nat) (keep : bool),
    unquoteLoop (if keep then pending else 0%nat)
      (appendStringLoop pending keep s) ≠ None.
Proof.
  induction s as [|c s IH]; intros pending keep; [by destruct keep, pending|].
  destruct pending as [|k]; cbn [appendStringLoop].
  - assert (Hzero : (if keep then 0%nat else 0%nat) = 0%nat) by by destruct keep.
    rewrite Hzero. clear Hzero.
    destruct (byte_val c <? 0x80) eqn:Hlow.
    + destruct (htmlSafe (byte_val c)) eqn:Hsafe.
      * by apply unquotePiece_safe, (IH 0%nat true).
      * by apply unquotePiece_escapeByte, (IH 0%nat true).
    + destruct (DecodeRuneInString (String c s)) as [r size] eqn:E.
      destruct ((r =? RuneError) && (size =? 1)%nat) eqn:Hbad.
      * pose proof (IH 0%nat true) as Hrest. cbv iota in Hrest.
        push_append. exact (prefix_some _ _ Hrest).
      * destruct ((r =? 0x2028) || (r =? 0x2029)) eqn:Hsep.
        -- assert (Hr : r = 0x2028 ∨ r = 0x2029).
           { apply orb_prop in Hsep as [H|H]; [left|right]; lia. }
           pose proof (IH (size - 1)%nat false) as Hrest. cbv iota in Hrest.
           destruct Hr as [-> | ->]; push_append;
             exact (prefix_some _ _ Hrest).
        -- rewrite unquoteLoop_high by done.
           rewrite (decode_stable c s r size E Hbad).
           apply prefix_some, (IH (size - 1)%nat true).
  - destruct keep.
    + exact (IH k true).
    + exact (IH k false).
Qed.

Lemma unquote_appendString (s : string) :
  unquote (appendStringLoop 0 true s) ≠ None.
Proof. exact (unquoteLoop_appendStringLoop s 0%nat true). Qed.

(** A string as [appendString] writes it is one string token. *)
Lemma lex_appendString (s rest : string) (toks : list token) :
  lexFrom LIdle rest = Some toks →
  lexFrom LIdle (appendString s ++ rest)
  = Some (TString (appendStringLoop 0 true s) :: toks).
Proof.
  intros Hrest. unfold appendString, quote.
  rewrite !append_assoc. push_append.
  cbn [lexFrom lexStep lexIdle].
  change (lexIdle "034") with (Some (LString "", @nil token)).
  cbv iota beta.
  rewrite (stringRun_appendStringLoop s 0%nat true (fun _ => eq_refl)).
  cbn. rewrite Hrest. reflexivity.
Qed.

(** *** Tokens *)

Lemma lexes_nil : lexes "" [].
Proof. intros rest more H. exact H. Qed.

Lemma lexes_app p1 p2 t1 t2 :
  lexes p1 t1 → lexes p2 t2 → lexes (p1 ++ p2) (t1 ++ t2).
Proof.
  intros H1 H2 rest more H.
  rewrite append_assoc, <- app_assoc. apply H1, H2, H.
Qed.

Lemma lexFrom_emit (st st' : lexState) (c : ascii) (rest : string)
    (t : token) (more : list token) :
  lexStep st c = Some (st', [t]) → lexFrom st' rest = Some more →
  lexFrom st (String c rest) = Some (t :: more).
Proof. intros E1 E2. simpl. by rewrite E1, E2. Qed.

Lemma lexes_char (c : ascii) (t : token) :
  lexIdle c = Some (LIdle, [t]) → lexes (String c "") [t].
Proof.
  intros E rest more H. change (String c "" ++ rest) with (String c rest).
  by apply (lexFrom_emit LIdle LIdle).
Qed.

Lemma lexes_appendString (s : string) :
  lexes (appendString s) [TString (appendStringLoop 0 true s)].
Proof. intros rest more H. by apply lex_appendString. Qed.

(** Concrete text: the lexer is run byte by byte. *)
Ltac lex_run :=
  repeat first
    [ erewrite lexFrom_step by reflexivity
    | eapply lexFrom_emit; [reflexivity|] ].

Ltac lexes_text :=
  let rest := fresh "rest" in
  let more := fresh "more" in
  let H := fresh "H" in
  intros rest more H; unfold encodeKey, quote; push_append; lex_run; exact H.

Lemma lexes_true : lexes "true" [TTrue].
Proof. lexes_text. Qed.

Lemma lexes_false : lexes "false" [TFalse].
Proof. lexes_text. Qed.

Ltac good_key := split; [lexes_text | by vm_compute].

Lemma goodKey_content : goodKey "content". Proof. good_key. Qed.
Lemma goodKey_embeds : goodKey "embeds". Proof. good_key. Qed.
Lemma goodKey_title : goodKey "title". Proof. good_key. Qed.
Lemma goodKey_description : goodKey "description". Proof. good_key. Qed.
Lemma goodKey_color : goodKey "color". Proof. good_key. Qed.
Lemma goodKey_url : goodKey "url". Proof. good_key. Qed.
Lemma goodKey_fields : goodKey "fields". Proof. good_key. Qed.
Lemma goodKey_name : goodKey "name". Proof. good_key. Qed.
Lemma goodKey_value : goodKey "value". Proof. good_key. Qed.
Lemma goodKey_inline : goodKey "inline". Proof. good_key. Qed.

(** *** Numbers *)

Lemma allDigits_uint (d : Decimal.uint) :
  allDigits (NilEmpty.string_of_uint d) = true.
Proof. induction d; simpl; try done; by rewrite IHd. Qed.

Lemma lexFrom_digits (ds : string) :
  ∀ (lit : string) (dl : ascii) (t : token) (rest : string) (more : list token),
    allDigits ds = true →
    lexIdle dl = Some (LIdle, [t]) → numStep N1 dl = None →
    lexFrom LIdle rest = Some more →
    lexFrom (LNumber N1 lit) (ds ++ String dl rest)
    = Some (TNumber (lit ++ ds) :: t :: more).
Proof.
  induction ds as [|c ds IH]; intros lit dl t rest more Hd Hdl Hn Hrest.
  - rewrite append_empty_l, append_empty_r.
    cbn [lexFrom lexStep]. rewrite Hn. cbn [numFinal]. rewrite Hdl, Hrest.
    reflexivity.
  - cbn [allDigits] in Hd. apply andb_prop in Hd as [Hc Hd].
    rewrite append_cons.
    assert (E : lexStep (LNumber N1 lit) c = Some (LNumber N1 (snoc lit c), [])).
    { cbn [lexStep numStep]. by rewrite Hc. }
    rewrite (lexFrom_step _ _ _ _ E).
    rewrite (IH (snoc lit c) dl t rest more Hd Hdl Hn Hrest).
    unfold snoc. by rewrite append_assoc.
Qed.

(** The decimal digits of a positive number do not begin with a zero. *)
Lemma to_uint_head (p : positive) :
  match Pos.to_uint p with
  | Decimal.Nil | Decimal.D0 _ => False
  | _ => True
  end.
Proof.
  pose proof (DecimalPos.Unsigned.to_of (Pos.to_uint p)) as H.
  rewrite DecimalPos.Unsigned.of_to in H. simpl in H.
  pose proof (DecimalPos.Unsigned.to_uint_nonzero p) as Hz.
  pose proof (DecimalPos.Unsigned.to_uint_nonnil p) as Hn.
  destruct (Pos.to_uint p) as [|u| | | | | | | | |] eqn:E; try done.
  unfold Decimal.unorm in H. cbn [Decimal.nzhead] in H.
  pose proof (DecimalFacts.nzhead_nonzero u) as Hh.
  destruct (Decimal.nzhead u) eqn:Eu; try done.
  by destruct (Hh u).
Qed.

Lemma lexes_Itoa (n : Z) (dl : ascii) (t : token) :
  lexIdle dl = Some (LIdle, [t]) → numStep N1 dl = None → numStep N0 dl = None →
  lexes (Itoa n ++ String dl "") [TNumber (Itoa n); t].
Proof.
  intros Hdl H1 H0 rest more Hrest.
  rewrite append_assoc. change (String dl "" ++ rest) with (String dl rest).
  unfold Itoa. destruct n as [|p|p]; cbn [Z.to_int NilZero.string_of_int].
  - change (NilZero.string_of_uint Decimal.zero) with "0".
    rewrite append_cons, append_empty_l.
    erewrite lexFrom_step by reflexivity.
    cbn [lexFrom lexStep]. rewrite H0. cbn [numFinal]. by rewrite Hdl, Hrest.
  - pose proof (to_uint_head p) as Hh.
    destruct (Pos.to_uint p) as [|u|u|u|u|u|u|u|u|u|u]; try done;
      cbn [NilZero.string_of_uint NilEmpty.string_of_uint];
      rewrite append_cons;
      (erewrite lexFrom_step by reflexivity);
      by rewrite (lexFrom_digits _ _ dl t rest more (allDigits_uint u) Hdl H1 Hrest).
  - pose proof (to_uint_head p) as Hh.
    rewrite append_cons. erewrite lexFrom_step by reflexivity.
    destruct (Pos.to_uint p) as [|u|u|u|u|u|u|u|u|u|u]; try done;
      cbn [NilZero.string_of_uint NilEmpty.string_of_uint];
      rewrite append_cons;
      (erewrite lexFrom_step by reflexivity);
      by rewrite (lexFrom_digits _ _ dl t rest more (allDigits_uint u) Hdl H1 Hrest).
Qed.

(** *** The parser, piece by piece *)

Lemma parseRun_app st t1 t2 st1 :
  parseRun st t1 = Some st1 → parseRun st (t1 ++ t2) = parseRun st1 t2.
Proof.
  revert st. induction t1 as [|t t1 IH]; intros st H; simpl in *.
  - by injection H as ->.
  - destruct (parseStep st t); [by apply IH | done].
Qed.

Lemma parseFrom_run st toks st' more :
  parseRun st toks = Some st' → parseFrom st (toks ++ more) = parseFrom st' more.
Proof.
  revert st. induction toks as [|t toks IH]; intros st H; simpl in *.
  - by injection H as ->.
  - destruct (parseStep st t); [by apply IH | done].
Qed.

Lemma consumes_app p1 p2 st st1 st2 :
  consumes p1 st st1 → consumes p2 st1 st2 → consumes (p1 ++ p2) st st2.
Proof.
  intros (t1 & L1 & R1) (t2 & L2 & R2). exists (t1 ++ t2)%list. split.
  - by apply lexes_app.
  - by rewrite (parseRun_app _ _ _ _ R1).
Qed.

Lemma consumes_char (c : ascii) (t : token) st st' :
  lexIdle c = Some (LIdle, [t]) → parseStep st t = Some st' →
  consumes (String c "") st st'.
Proof.
  intros Hl Hp. exists [t]. split; [by apply lexes_char|].
  cbn [parseRun]. by rewrite Hp.
Qed.

Lemma consumes_valid (text : string) (v : json) :
  consumes text (EValue, []) (EDone v, []) → parseJSON text = Some v.
Proof.
  intros (toks & Hl & Hp). unfold parseJSON, lex.
  specialize (Hl "" [] eq_refl). rewrite append_empty_r in Hl. rewrite Hl.
  by rewrite (parseFrom_run _ _ _ [] Hp).
Qed.

Lemma push_fits (f : frame) (next : expect) (stack : list frame) (d : nat) :
  fits (S d) stack → push f next stack = Some (next, f :: stack).
Proof.
  unfold fits, push, maxNestingDepth. intros H.
  destruct (Z.leb_spec (Z.of_nat (length (f :: stack))) 10000) as [_|Hlt];
    [done|]. cbn [length] in Hlt. lia.
Qed.

Lemma fits_push (f : frame) (stack : list frame) (d : nat) :
  fits (S d) stack → fits d (f :: stack).
Proof. unfold fits. cbn [length]. lia. Qed.

Lemma isValue_mono (d d' : nat) (text : string) :
  (d ≤ d')%nat → isValue d text → isValue d' text.
Proof.
  intros Hd Hv e stack He Hf. apply Hv; [done|]. unfold fits in *. lia.
Qed.

Lemma isValue_valid (d : nat) (text : string) :
  Z.of_nat d <= maxNestingDepth → isValue d text → validJSON text.
Proof.
  intros Hd Hv. destruct (Hv EValue []) as [v C]; [by left|by unfold fits|].
  unfold validJSON. by rewrite (consumes_valid text v (C _ eq_refl)).
Qed.

(** *** Values *)

Lemma isValue_string (s : string) : isValue 0 (appendString s).
Proof.
  intros e stack He _.
  pose proof (unquote_appendString s) as Hu.
  destruct (unquote (appendStringLoop 0 true s)) as [u|] eqn:E; [|done].
  exists (JString u). intros st' Hc.
  exists [TString (appendStringLoop 0 true s)].
  split; [apply lexes_appendString|].
  destruct He as [-> | ->]; cbn [parseRun parseStep beginValue];
    by rewrite E, Hc.
Qed.

Lemma isValue_bool (b : bool) : isValue 0 (encodeBool b).
Proof.
  intros e stack He _. exists (JBool b). intros st' Hc.
  destruct b.
  - exists [TTrue]. split; [apply lexes_true|].
    destruct He as [-> | ->]; cbn [parseRun parseStep beginValue];
      by rewrite Hc.
  - exists [TFalse]. split; [apply lexes_false|].
    destruct He as [-> | ->]; cbn [parseRun parseStep beginValue];
      by rewrite Hc.
Qed.

(** *** Objects *)

Lemma consumes_key (name : string) (e : expect) ms st :
  goodKey name → keyNext e →
  consumes (encodeKey name) (e, FObject ms None :: st)
    (EValue, FObject ms (Some name) :: st).
Proof.
  intros [Hl Hu] He. exists [TString name; TColon]. split; [exact Hl|].
  destruct He as [-> | ->]; cbn [parseRun parseStep beginKey];
    by rewrite Hu.
Qed.

Lemma isMembers_one (name text : string) (d : nat) :
  goodKey name → isValue d text → isMembers d (encodeKey name ++ text).
Proof.
  intros Hk Hv e ms st He Hf.
  destruct (Hv EValue (FObject ms (Some name) :: st)) as [v C];
    [by left | by apply fits_push |].
  exists ((name, v) :: ms).
  eapply consumes_app; [by apply consumes_key|]. by apply C.
Qed.

Lemma isMembers_cons (d : nat) (m rest : string) :
  isMembers d m → isMembers d rest → isMembers d (m ++ "," ++ rest).
Proof.
  intros H1 H2 e ms st He Hf.
  destruct (H1 e ms st He Hf) as [ms1 C1].
  destruct (H2 EKey ms1 st (or_introl eq_refl) Hf) as [ms2 C2].
  exists ms2. eapply consumes_app; [exact C1|].
  eapply consumes_app; [|exact C2].
  by apply (consumes_char _ TComma).
Qed.

Lemma consumes_number (n : Z) (dl : ascii) (t : token) (name : string) ms st st' :
  lexIdle dl = Some (LIdle, [t]) → numStep N1 dl = None → numStep N0 dl = None →
  parseStep (EAfter, FObject ((name, JNumber (Itoa n)) :: ms) None :: st) t
  = Some st' →
  consumes (Itoa n ++ String dl "") (EValue, FObject ms (Some name) :: st) st'.
Proof.
  intros Hdl H1 H0 Hp. exists [TNumber (Itoa n); t].
  split; [by apply lexes_Itoa|].
  cbn [parseRun]. change (parseStep (EValue, FObject ms (Some name) :: st)
                            (TNumber (Itoa n)))
    with (Some (EAfter, FObject ((name, JNumber (Itoa n)) :: ms) None :: st)).
  cbv iota beta. by rewrite Hp.
Qed.

Lemma isMembers_number (name : string) (n : Z) (d : nat) (rest : string) :
  goodKey name → isMembers d rest →
  isMembers d ((encodeKey name ++ Itoa n) ++ "," ++ rest).
Proof.
  intros Hk Hr e ms st He Hf.
  destruct (Hr EKey ((name, JNumber (Itoa n)) :: ms) st (or_introl eq_refl) Hf)
    as [ms' C].
  exists ms'. rewrite append_assoc, <- (append_assoc (Itoa n)).
  eapply consumes_app; [by apply consumes_key|].
  eapply consumes_app; [|exact C].
  by apply (consumes_number n "," TComma).
Qed.

Lemma isLast_members (d : nat) (text : string) :
  isMembers d text → isLastMembers d text.
Proof.
  intros Hm e ms stack He Hf. destruct (Hm e ms stack He Hf) as [ms' C].
  exists (JObject (rev ms')). intros st' Hc.
  eapply consumes_app; [exact C|].
  by apply (consumes_char _ TRBrace).
Qed.

Lemma isLast_number (name : string) (n : Z) (d : nat) :
  goodKey name → isLastMembers d (encodeKey name ++ Itoa n).
Proof.
  intros Hk e ms stack He Hf.
  exists (JObject (rev ((name, JNumber (Itoa n)) :: ms))). intros st' Hc.
  rewrite append_assoc.
  eapply consumes_app; [by apply consumes_key|].
  by apply (consumes_number n "}" TRBrace).
Qed.

Lemma isLast_cons (d : nat) (m rest : string) :
  isMembers d m → isLastMembers d rest → isLastMembers d (m ++ "," ++ rest).
Proof.
  intros H1 H2 e ms stack He Hf.
  destruct (H1 e ms stack He Hf) as [ms1 C1].
  destruct (H2 EKey ms1 stack (or_introl eq_refl) Hf) as [v C2].
  exists v. intros st' Hc. rewrite !append_assoc.
  eapply consumes_app; [exact C1|].
  eapply consumes_app; [|by apply C2].
  by apply (consumes_char _ TComma).
Qed.

Lemma consumes_open (c : ascii) (t : token) (f : frame) (next : expect)
    (e : expect) (stack : list frame) (d : nat) :
  lexIdle c = Some (LIdle, [t]) →
  beginValue t stack = push f next stack →
  t ≠ TRBracket →
  starts e → fits (S d) stack →
  consumes (String c "") (e, stack) (next, f :: stack).
Proof.
  intros Hl Hb Ht He Hf. apply (consumes_char c t); [done|].
  rewrite <- (push_fits f next stack d Hf), <- Hb.
  destruct He as [-> | ->]; [done|]. by destruct t.
Qed.

Lemma isValue_object (d : nat) (text : string) :
  isLastMembers d text → isValue (S d) ("{" ++ text ++ "}").
Proof.
  intros Hm e stack He Hf.
  destruct (Hm EObjectFirst [] stack (or_intror eq_refl) Hf) as [v C].
  exists v. intros st' Hc.
  eapply consumes_app; [|by apply C].
  by apply (consumes_open "{" TLBrace (FObject [] None) EObjectFirst _ _ d).
Qed.

Lemma isValue_empty_object : isValue 1 "{}".
Proof.
  intros e stack He Hf. exists (JObject []). intros st' Hc.
  change "{}" with ("{" ++ "}").
  eapply consumes_app; [by apply (consumes_open "{" TLBrace (FObject [] None) EObjectFirst _ _ 0%nat)|].
  by apply (consumes_char _ TRBrace).
Qed.

(** *** Arrays *)

Lemma isElements_one (d : nat) (text : string) :
  isValue d text → isElements d text.
Proof.
  intros Hv e es st He Hf.
  destruct (Hv e (FArray es :: st) He) as [v C]; [by apply fits_push|].
  exists (v :: es). by apply C.
Qed.

Lemma isElements_cons (d : nat) (text rest : string) :
  isValue d text → isElements d rest → isElements d (text ++ "," ++ rest).
Proof.
  intros Hv Hr e es st He Hf.
  destruct (isElements_one d text Hv e es st He Hf) as [es1 C1].
  destruct (Hr EValue es1 st (or_introl eq_refl) Hf) as [es2 C2].
  exists es2. eapply consumes_app; [exact C1|].
  eapply consumes_app; [|exact C2].
  by apply (consumes_char _ TComma).
Qed.

Lemma isValue_array (d : nat) (text : string) :
  isElements d text → isValue (S d) ("[" ++ text ++ "]").
Proof.
  intros Hm e stack He Hf.
  destruct (Hm EArrayFirst [] stack (or_intror eq_refl) Hf) as [es C].
  exists (JArray (rev es)). intros st' Hc.
  eapply consumes_app; [by apply (consumes_open "[" TLBracket (FArray []) EArrayFirst _ _ d)|].
  eapply consumes_app; [exact C|].
  by apply (consumes_char _ TRBracket).
Qed.

(** *** The members of an object and the elements of an array, joined *)

Lemma joinMembers_step (m : string) (rest : list (option string)) :
  joinMembers (Some m :: rest)
  = match joinMembers rest with
    | EmptyString => m
    | String c tail => m ++ "," ++ String c tail
    end.
Proof. reflexivity. Qed.

Lemma joinMembers_nonempty (m : string) (rest : list (option string)) :
  m ≠ "" → joinMembers (Some m :: rest) ≠ "".
Proof.
  intros Hm. rewrite joinMembers_step.
  destruct (joinMembers rest); [done|]. by destruct m.
Qed.

Lemma joinMembers_cons (m m' : string) (rest : list (option string)) :
  m' ≠ "" →
  joinMembers (Some m :: Some m' :: rest)
  = m ++ "," ++ joinMembers (Some m' :: rest).
Proof.
  intros Hm. rewrite (joinMembers_step m).
  pose proof (joinMembers_nonempty m' rest Hm) as Hn.
  by destruct (joinMembers (Some m' :: rest)).
Qed.

Lemma joinMembers_skip (m : string) (rest : list (option string)) :
  joinMembers (Some m :: None :: rest) = joinMembers (Some m :: rest).
Proof. reflexivity. Qed.

Lemma joinMembers_none (rest : list (option string)) :
  joinMembers (None :: rest) = joinMembers rest.
Proof. reflexivity. Qed.

Lemma joinMembers_one (m : string) : joinMembers [Some m] = m.
Proof. reflexivity. Qed.

Lemma member_nonempty (name text : string) : encodeKey name ++ text ≠ "".
Proof. unfold encodeKey, quote. by rewrite append_cons. Qed.

Lemma encodeObject_nonempty (members : list (option string)) :
  encodeObject members ≠ "".
Proof. unfold encodeObject. by rewrite append_cons. Qed.

Ltac join_members :=
  repeat (rewrite joinMembers_none || rewrite joinMembers_skip);
  rewrite ?joinMembers_cons by apply member_nonempty;
  rewrite ?joinMembers_one.

Lemma isElements_join (d : nat) (texts : list string) :
  texts ≠ [] → Forall (λ t, t ≠ "" ∧ isValue d t) texts →
  isElements d (joinMembers (map Some texts)).
Proof.
  induction texts as [|t ts IH]; [done|]. intros _ Hall.
  apply Forall_cons in Hall as [[Ht Hv] Hall].
  destruct ts as [|t' ts].
  - cbn [map]. rewrite joinMembers_one. by apply isElements_one.
  - pose proof Hall as Hall'. apply Forall_cons in Hall' as [[Ht' _] _].
    cbn [map]. rewrite joinMembers_cons by done.
    apply isElements_cons; [done|]. by apply IH.
Qed.

Lemma isValue_encodeArray (d : nat) (texts : list string) :
  texts ≠ [] → Forall (λ t, t ≠ "" ∧ isValue d t) texts →
  isValue (S d) (encodeArray texts).
Proof.
  intros Hne Hall. unfold encodeArray.
  by apply isValue_array, isElements_join.
Qed.

(** *** The three structures of a message *)

Lemma isValue_field (f : DiscordEmbedField.t) :
  isValue 1 (encodeDiscordEmbedField f).
Proof.
  destruct f as [N V inline].
  unfold encodeDiscordEmbedField, encodeObject, always, omitempty.
  cbn [DiscordEmbedField.Name DiscordEmbedField.Value DiscordEmbedField.Inline].
  apply isValue_object. destruct inline; cbn [negb]; join_members.
  - apply isLast_members.
    apply isMembers_cons;
      [apply isMembers_one; [apply goodKey_name | apply isValue_string]|].
    apply isMembers_cons;
      [apply isMembers_one; [apply goodKey_value | apply isValue_string]|].
    apply isMembers_one; [apply goodKey_inline | apply isValue_bool].
  - apply isLast_members.
    apply isMembers_cons;
      [apply isMembers_one; [apply goodKey_name | apply isValue_string]|].
    apply isMembers_one; [apply goodKey_value | apply isValue_string].
Qed.

Lemma isValue_fields (f : DiscordEmbedField.t) (fs : list DiscordEmbedField.t) :
  isValue 2 (encodeArray (map encodeDiscordEmbedField (f :: fs))).
Proof.
  apply isValue_encodeArray; [done|].
  apply Forall_map, Forall_forall. intros g _. split.
  - apply encodeObject_nonempty.
  - apply isValue_field.
Qed.

Lemma isValue_embed (e : DiscordEmbed.t) : isValue 3 (encodeDiscordEmbed e).
Proof.
  destruct e as [T D c U F].
  unfold encodeDiscordEmbed, encodeObject, always, omitempty.
  cbn [DiscordEmbed.Title DiscordEmbed.Description DiscordEmbed.Color
       DiscordEmbed.URL DiscordEmbed.Fields].
  apply isValue_object.
  assert (HT : isMembers 2 (encodeKey "title" ++ appendString T)).
  { apply isMembers_one; [apply goodKey_title|].
    apply (isValue_mono 0); [lia | apply isValue_string]. }
  assert (HD : isMembers 2 (encodeKey "description" ++ appendString D)).
  { apply isMembers_one; [apply goodKey_description|].
    apply (isValue_mono 0); [lia | apply isValue_string]. }
  assert (HU : isMembers 2 (encodeKey "url" ++ appendString U)).
  { apply isMembers_one; [apply goodKey_url|].
    apply (isValue_mono 0); [lia | apply isValue_string]. }
  destruct U as [|u0 U]; destruct F as [|f fs];
    cbn [isEmptyString isEmptySlice String.length length Nat.eqb];
    join_members;
    (apply isLast_cons; [exact HT|]); (apply isLast_cons; [exact HD|]).
  - apply isLast_number, goodKey_color.
  - apply isLast_members, isMembers_number; [apply goodKey_color|].
    apply isMembers_one; [apply goodKey_fields | apply isValue_fields].
  - apply isLast_members, isMembers_number; [apply goodKey_color|]. exact HU.
  - apply isLast_members, isMembers_number; [apply goodKey_color|].
    apply isMembers_cons; [exact HU|].
    apply isMembers_one; [apply goodKey_fields | apply isValue_fields].
Qed.

Lemma isValue_embeds (e : DiscordEmbed.t) (es : list DiscordEmbed.t) :
  isValue 4 (encodeArray (map encodeDiscordEmbed (e :: es))).
Proof.
  apply isValue_encodeArray; [done|].
  apply Forall_map, Forall_forall. intros g _. split.
  - apply encodeObject_nonempty.
  - apply isValue_embed.
Qed.

Lemma isValue_message (m : DiscordMessage.t) :
  isValue 5 (encodeDiscordMessage m).
Proof.
  destruct m as [C E].
  unfold encodeDiscordMessage, encodeObject, omitempty.
  cbn [DiscordMessage.Content DiscordMessage.Embeds].
  assert (HC : isMembers 4 (encodeKey "content" ++ appendString C)).
  { apply isMembers_one; [apply goodKey_content|].
    apply (isValue_mono 0); [lia | apply isValue_string]. }
  destruct C as [|c0 C]; destruct E as [|e es];
    cbn [isEmptyString isEmptySlice String.length length Nat.eqb];
    join_members.
  - apply (isValue_mono 1); [lia | apply isValue_empty_object].
  - apply isValue_object, isLast_members.
    apply isMembers_one; [apply goodKey_embeds | apply isValue_embeds].
  - by apply isValue_object, isLast_members.
  - apply isValue_object, isLast_members.
    apply isMembers_cons; [exact HC|].
    apply isMembers_one; [apply goodKey_embeds | apply isValue_embeds].
Qed.

(** Whatever the message, [Marshal] writes a text that [Unmarshal]'s
    validity check accepts. *)
Lemma encodeDiscordMessage_valid (m : DiscordMessage.t) :
  validJSON (encodeDiscordMessage m).
Proof.
  apply (isValue_valid 5); [by unfold maxNestingDepth | apply isValue_message].
Qed.

(** X17.  Whatever message [sendDiscordMessage] is given (any bytes in its
    strings, any color, any number of embeds and of fields, members left
    out or not), the body of the request it posts is well-formed JSON, and
    it is posted as application/json. *)
Theorem posted_body_is_json
    (webhookURL : string) (message : DiscordMessage.t) (w : World) :
  Forall (λ d, validJSON d.(body) ∧ d.(contentType) = "application/json")
    (deliveries (sendDiscordMessage webhookURL message) w).
Proof.
  rewrite deliveries_sendDiscordMessage. constructor; [|constructor].
  split; [apply encodeDiscordMessage_valid | reflexivity].
Qed.

(** X18.  Whatever request reaches the endpoint (any header, any body),
    every request it sends on carries well-formed JSON. *)
Theorem endpoint_sends_json
    (developmentChannelWebhook testingChannelWebhook : string)
    (c : gin_Context) (w : World) :
  Forall (λ d, validJSON d.(body))
    (deliveries
       (handleGitHubWebhook developmentChannelWebhook testingChannelWebhook c)
       w).
Proof.
  rewrite endpoint_deliveries.
  destruct (c.(Request).(Body)) as [data|err]; [|constructor].
  destruct (json_Unmarshal data GitHubEvent.zero) as [event [err|]];
    [constructor|].
  destruct (GetHeader c "X-GitHub-Event" =? "pull_request")%string.
  - rewrite pull_request_deliveries.
    repeat match goal with
           | |- Forall _ (if ?b then _ else _) => destruct b
           end;
      repeat constructor; apply encodeDiscordMessage_valid.
  - destruct (GetHeader c "X-GitHub-Event" =? "workflow_run")%string;
      [|constructor].
    rewrite workflow_run_deliveries.
    destruct (event.(GitHubEvent.Action) =? "completed")%string;
      repeat constructor; apply encodeDiscordMessage_valid.
Qed.

(** ** The further properties at sample inputs *)

Lemma unreadable_body_rejected_witness :
  let run := handleGitHubWebhook devURL testURL unreadableRequest in
  unreadableRequest.(Request).(Body) = inr ReadError
  ∧ fst (run sampleWorld) = JSON 400 {[ "error" := "Unable to read request body" ]}
  ∧ deliveries run sampleWorld = []
  ∧ logged run sampleWorld
    = [ Printf "Received GitHub webhook event: %s"
          [AString (GetHeader unreadableRequest "X-GitHub-Event")];
        Printf "Error reading request body: %v" [AError ReadError] ].
Proof.
  split; [reflexivity|].
  apply (unreadable_body_rejected devURL testURL unreadableRequest ReadError
           sampleWorld eq_refl).
Defined.

Lemma destination_follows_header_witness :
  let c := sampleRequest "pull_request" openedPayload in
  In sampleOpenedDelivery
    (deliveries (handleGitHubWebhook devURL testURL c) sampleWorld)
  ∧ ((GetHeader c "X-GitHub-Event" = "pull_request"
      ∧ sampleOpenedDelivery.(url) = devURL)
     ∨ (GetHeader c "X-GitHub-Event" = "workflow_run"
        ∧ sampleOpenedDelivery.(url) = testURL)).
Proof.
  assert (Hin : In sampleOpenedDelivery
                  (deliveries
                     (handleGitHubWebhook devURL testURL
                        (sampleRequest "pull_request" openedPayload))
                     sampleWorld)).
  { vm_compute. left. reflexivity. }
  split; [exact Hin|].
  apply (destination_follows_header devURL testURL
           (sampleRequest "pull_request" openedPayload) sampleWorld
           sampleOpenedDelivery Hin).
Defined.

Lemma dropped_events_are_logged_witness :
  let event := samplePullRequest "labeled" false in
  let pr := handlePullRequestEvent devURL event in
  deliveries pr sampleWorld = []
  ∧ (logged pr sampleWorld
     = [ Printf "Processing pull request event: %s" [AString "labeled"];
         Printf "Ignoring PR action: %s" [AString "labeled"] ]
     ∨ logged pr sampleWorld
       = [ Printf "Processing pull request event: %s" [AString "labeled"];
           Printf "PR was closed without merging, not sending notification" [] ]).
Proof.
  assert (Hd : deliveries
                 (handlePullRequestEvent devURL (samplePullRequest "labeled" false))
                 sampleWorld = []) by reflexivity.
  split; [exact Hd|].
  apply (proj1 (dropped_events_are_logged devURL testURL
                  (samplePullRequest "labeled" false) sampleWorld) Hd).
Defined.

Lemma merged_only_when_closed_and_merged_witness :
  let event := samplePullRequest "opened" false in
  In sampleOpenedDelivery
    (deliveries (handlePullRequestEvent devURL event) sampleWorld)
  ∧ ∃ embed : DiscordEmbed.t,
      sampleOpenedDelivery.(message).(DiscordMessage.Embeds) = [embed]
      ∧ (embed.(DiscordEmbed.Title) = "Pull Request merged"
         ↔ event.(GitHubEvent.Action) = "closed"
           ∧ event.(GitHubEvent.PullRequest).(PullRequest.Merged) = true)
      ∧ (embed.(DiscordEmbed.Color) = 0x6E48CD
         ↔ event.(GitHubEvent.Action) = "closed"
           ∧ event.(GitHubEvent.PullRequest).(PullRequest.Merged) = true).
Proof.
  assert (Hin : In sampleOpenedDelivery
                  (deliveries
                     (handlePullRequestEvent devURL (samplePullRequest "opened" false))
                     sampleWorld)).
  { left. reflexivity. }
  split; [exact Hin|].
  apply (merged_only_when_closed_and_merged devURL
           (samplePullRequest "opened" false) sampleWorld sampleOpenedDelivery Hin).
Defined.

Lemma colors_are_rgb_witness :
  let event := samplePullRequest "opened" false in
  (In sampleOpenedDelivery
     (deliveries (handlePullRequestEvent devURL event) sampleWorld)
   ∨ In sampleOpenedDelivery
       (deliveries (handleWorkflowRunEvent testURL event) sampleWorld))
  ∧ ∃ embed : DiscordEmbed.t,
      sampleOpenedDelivery.(message).(DiscordMessage.Embeds) = [embed]
      ∧ In embed.(DiscordEmbed.Color)
          [0x1D82F7; 0x6E48CD; 0x2ECC71; 0xE74C3C; 0xF39C12; 0x95A5A6; 0xE6E6E6]
      ∧ 0 <= embed.(DiscordEmbed.Color) <= 0xFFFFFF.
Proof.
  assert (Hin : In sampleOpenedDelivery
                  (deliveries
                     (handlePullRequestEvent devURL (samplePullRequest "opened" false))
                     sampleWorld)).
  { left. reflexivity. }
  split; [left; exact Hin|].
  apply (colors_are_rgb devURL testURL (samplePullRequest "opened" false)
           sampleWorld sampleOpenedDelivery).
  left; exact Hin.
Defined.

Lemma unknown_keys_are_ignored_witness :
  let before := [("action", JString "opened")] in
  let after := [("sender", JObject [("login", JString "alice")])] in
  existsb (selects "installation")
    ["action"; "repository"; "sender"; "pull_request"; "workflow_run"] = false
  ∧ storeGitHubEvent
      (JObject (before ++ ("installation", JObject [("id", JNumber "7")]) :: after))
      GitHubEvent.zero
    = storeGitHubEvent (JObject (before ++ after)) GitHubEvent.zero.
Proof.
  split; [reflexivity|].
  apply (unknown_keys_are_ignored
           [("action", JString "opened")]
           [("sender", JObject [("login", JString "alice")])]
           "installation" (JObject [("id", JNumber "7")]) GitHubEvent.zero).
  reflexivity.
Defined.

Lemma number_round_trip_witness :
  - 2 ^ 63 <= 42 < 2 ^ 63
  ∧ let '(pr', err) :=
      storePullRequest (JObject [("number", JNumber (Itoa 42))]) PullRequest.zero in
    err = None
    ∧ pr'.(PullRequest.Number) = 42
    ∧ Sprintf "%d" [AInt pr'.(PullRequest.Number)] = Itoa 42.
Proof.
  split; [lia|].
  apply (number_round_trip 42 PullRequest.zero). lia.
Defined.

Lemma environment_wins_witness :
  sampleEnviron !! "DISCORD_DEV_WEBHOOK_URL" = Some devURL
  ∧ devURL ≠ ""
  ∧ sampleEnviron !! "DISCORD_TEST_WEBHOOK_URL" = Some testURL
  ∧ testURL ≠ ""
  ∧ ∃ addr : string,
      snd (main sampleEnviron (Some sampleDotenv)) = Run devURL testURL addr.
Proof.
  split; [reflexivity|]. split; [discriminate|].
  split; [reflexivity|]. split; [discriminate|].
  destruct (environment_wins sampleEnviron (Some sampleDotenv) devURL testURL)
    as (addr & Hrun & _); [reflexivity | discriminate | reflexivity | discriminate |].
  exists addr. exact Hrun.
Defined.

Lemma health_always_ok_witness :
  let call := mkCall "GET" "/health" unreadableRequest in
  call.(Method) = "GET"
  ∧ call.(Path) = "/health"
  ∧ ∃ run : M ResponseWriter,
      ServeHTTP devURL testURL call = Some run
      ∧ snd (run sampleWorld) = sampleWorld
      ∧ sentStatus (fst (run sampleWorld)) = Some 200
      ∧ (fst (run sampleWorld)).(wBody) = [JSONBody {[ "status" := "ok" ]}].
Proof.
  split; [reflexivity|]. split; [reflexivity|].
  apply (health_always_ok devURL testURL
           (mkCall "GET" "/health" unreadableRequest) sampleWorld);
    reflexivity.
Defined.

Lemma preflight_stops_at_middleware_witness :
  let call :=
    mkCall "OPTIONS" "/webhook/github"
      (sampleRequest "pull_request" openedPayload) in
  call.(Method) = "OPTIONS"
  ∧ ∃ run : M ResponseWriter,
      ServeHTTP devURL testURL call = Some run
      ∧ snd (run sampleWorld) = sampleWorld
      ∧ sentStatus (fst (run sampleWorld)) = Some 204
      ∧ (fst (run sampleWorld)).(wBody) = [].
Proof.
  split; [reflexivity|].
  apply (preflight_stops_at_middleware devURL testURL
           (mkCall "OPTIONS" "/webhook/github"
              (sampleRequest "pull_request" openedPayload)) sampleWorld).
  reflexivity.
Defined.

Lemma webhook_route_is_the_endpoint_witness :
  let call :=
    mkCall "POST" "/webhook/github"
      (sampleRequest "pull_request" openedPayload) in
  let endpoint :=
    handleGitHubWebhook devURL testURL call.(Context) sampleWorld in
  call.(Method) = "POST"
  ∧ call.(Path) = "/webhook/github"
  ∧ ∃ run : M ResponseWriter,
      ServeHTTP devURL testURL call = Some run
      ∧ snd (run sampleWorld) = snd endpoint
      ∧ sentStatus (fst (run sampleWorld)) = Some (fst endpoint).(Code)
      ∧ (fst (run sampleWorld)).(wBody) = [JSONBody (fst endpoint).(H)].
Proof.
  split; [reflexivity|]. split; [reflexivity|].
  apply (webhook_route_is_the_endpoint devURL testURL
           (mkCall "POST" "/webhook/github"
              (sampleRequest "pull_request" openedPayload)) sampleWorld);
    reflexivity.
Defined.

Lemma cors_on_every_response_witness :
  let call := mkCall "DELETE" "/health" unreadableRequest in
  ServeHTTP devURL testURL call = Some (serveNoRoute call)
  ∧ carriesCors (fst (serveNoRoute call sampleWorld)).
Proof.
  split; [reflexivity|].
  apply (cors_on_every_response devURL testURL
           (mkCall "DELETE" "/health" unreadableRequest)
           (serveNoRoute (mkCall "DELETE" "/health" unreadableRequest))
           sampleWorld).
  reflexivity.
Defined.

(** ** Startup and the router at work *)

Example main_without_dotenv :
  main sampleEnviron None
  = ([ "Warning: Error loading .env file";
       "Starting webhook server on port 8088" ],
     Run devURL testURL ":8088").
Proof. reflexivity. Qed.

Example main_port_from_dotenv :
  main sampleEnviron (Some sampleDotenv)
  = (["Starting webhook server on port 9000"], Run devURL testURL ":9000").
Proof. reflexivity. Qed.

Example main_without_addresses :
  main ∅ (Some sampleDotenv)
  = (["Discord webhook URLs not set in environment variables"], Exit 1).
Proof. reflexivity. Qed.

Example put_is_not_found :
  let wr := fst (serveNoRoute (mkCall "PUT" "/health" unreadableRequest) sampleWorld) in
  sentStatus wr = Some 404
  ∧ wr.(wBody) = [TextBody "404 page not found"]
  ∧ sentHeader wr !! "Content-Type" = Some ["text/plain"].
Proof. by vm_compute. Qed.

Example other_path_is_not_modelled :
  ServeHTTP devURL testURL (mkCall "GET" "/health/" unreadableRequest) = None.
Proof. reflexivity. Qed.

(** ** A body read back *)

(** The body posted for the "opened" sample, read by the parser of
    [Unmarshal]'s validity check. *)
Example sample_body_read_back :
  parseJSON sampleOpenedDelivery.(body)
  = Some
      (JObject
         [("embeds",
           JArray
             [JObject
                [("title", JString "Pull Request opened");
                 ("description",
                  JString "**alice** opened [#42: Fix bug](http://x/42)");
                 ("color", JNumber "1934071");
                 ("url", JString "http://x/42");
                 ("fields",
                  JArray
                    [JObject
                       [("name", JString "Repository");
                        ("value", JString "[org/repo](http://x)");
                        ("inline", JBool true)];
                     JObject
                       [("name", JString "PR Status");
                        ("value", JString EmptyString);
                        ("inline", JBool true)]])]])]).
Proof. by vm_compute. Qed.

(** Bytes that cannot stand in a JSON string as they are (a quote, a line
    feed, a byte that is not UTF-8, an angle bracket) are written escaped
    and read back; a member left out is not read. *)
Example awkward_bytes_read_back :
  let message :=
    DiscordMessage.mk EmptyString
      [DiscordEmbed.mk (String "034" (String "010" (String "255" "<")))
         "d" (-7) EmptyString [DiscordEmbedField.mk "a" "b" false]] in
  parseJSON (encodeDiscordMessage message)
  = Some
      (JObject
         [("embeds",
           JArray
             [JObject
                [("title",
                  JString (String "034" (String "010" (EncodeRune RuneError ++ "<"))));
                 ("description", JString "d");
                 ("color", JNumber "-7");
                 ("fields",
                  JArray
                    [JObject [("name", JString "a"); ("value", JString "b")]])]])]).
Proof. by vm_compute. Qed.
